(** * epubToImg: adaptive pagination of an EPUB into page bitmaps

    A shallow embedding of [epubToImg.py] (class [EPUBSmartSplitter] and
    [main]) and the properties of its pagination engine.

    The browser (Playwright page), the output directory and standard
    output are one explicit [World]; every method of the class that talks
    to them is a computation in the state monad [M] over that world.  The
    layout engine itself is not part of the program: what a screenshot
    shows and what [scrollHeight] reports are functions of the page state,
    taken as variables of the section. *)

From Stdlib Require Import ZArith Lia Ascii Sorted.
From Stdlib Require Import DecimalFacts DecimalPos DecimalString DecimalZ Floats.
From stdpp Require Import base gmap strings list.

Open Scope Z_scope.

(** ** Python helpers *)

(** [range(start, stop, -1)]: [start, start-1, ..., stop+1]. *)
Definition range_down (start stop : Z) : list Z :=
  map (fun i : nat => start - Z.of_nat i) (seq 0 (Z.to_nat (start - stop))).

(** [range(start, stop)]: [start, start+1, ..., stop-1]. *)
Definition range_up (start stop : Z) : list Z :=
  map (fun i : nat => start + Z.of_nat i) (seq 0 (Z.to_nat (stop - start))).

(** ** PIL images

    An image of mode "L" (8-bit grayscale) or "1" (black 0 / white 255):
    its size and its pixels in row-major order, as [getdata()] lists them. *)
Module Image.

Record t := mk { width : Z; height : Z; getdata : list Z }.

(** The pixel at column [x], row [y]; 0 outside the image, which is what
    [crop] fills in for the part of a box that lies outside. *)
Definition getpixel (im : t) (x y : Z) : Z :=
  if (0 <=? x) && (x <? width im) && (0 <=? y) && (y <? height im)
  then nth (Z.to_nat (y * width im + x)) (getdata im) 0
  else 0.

(** [im.crop((left, upper, right, lower))]. *)
Definition crop (im : t) (left upper right lower : Z) : t :=
  {| width := right - left;
     height := lower - upper;
     getdata :=
       flat_map (fun y => map (fun x => getpixel im x y) (range_up left right))
                (range_up upper lower) |}.

(** [im.point(f, mode)] on an "L" image: [f] is tabulated once over
    [range(256)] and every pixel is looked up in that table. *)
Definition lut (f : Z -> Z) : list Z := map f (range_up 0 256).

Definition point (f : Z -> Z) (im : t) : t :=
  {| width := width im;
     height := height im;
     getdata := map (fun p => nth (Z.to_nat p) (lut f) 0) (getdata im) |}.

(** An "L" image as the decoder delivers it: as many pixels as its size
    says, each one byte. *)
Definition wf (im : t) : Prop :=
  0 <= width im /\ 0 <= height im /\
  length (getdata im) = Z.to_nat (width im * height im) /\
  Forall (fun p => 0 <= p <= 255) (getdata im).

End Image.

(** ** The world the program acts on *)

(** The state of the Playwright page that decides what is rendered: the
    document it was sent to, the font size injected into it (none until
    the style is injected), the viewport and the scroll offset last
    assigned to the scrolling element. *)
Record Page := mkPage {
  location : string;
  font_size : option string;
  viewport_size : Z * Z;
  scrollTop : Z
}.

(** The commands issued to the page, the file system and standard output,
    in the order the program issues them. *)
Inductive Event :=
| EvGoto (html_path : string)
| EvInjectBase
| EvInjectStyle (text_size : string)
| EvViewport (w h : Z)
| EvScroll (top : Z)
| EvWait (ms : Z)
| EvScreenshot
| EvSave (name : string) (im : Image.t)
| EvPrint (line : string).

(** An entry of the output directory: a page written by the program, or
    whatever was there before. *)
Inductive File :=
| Png (im : Image.t)
| Foreign.

Record World := mkWorld {
  page : Page;
  files : gmap string File;
  trace : list Event
}.

(** ** A state monad over the world *)

Definition M (A : Type) : Type := World -> A * World.

Definition ret {A} (a : A) : M A := fun w => (a, w).

Definition bind {A B} (m : M A) (k : A -> M B) : M B :=
  fun w => let (a, w') := m w in k a w'.

Declare Scope io_scope.
Delimit Scope io_scope with io.
Notation "'let*' x := m 'in' k" := (bind m (fun x => k))
  (at level 10, x name, m at level 100, k at level 200) : io_scope.
Notation "m ;;; k" := (bind m (fun _ => k))
  (at level 100, k at level 200, right associativity) : io_scope.

(** The effect of a command on the page state. *)
Definition page_after (e : Event) (p : Page) : Page :=
  match e with
  | EvGoto html_path =>
      {| location := html_path; font_size := None;
         viewport_size := viewport_size p; scrollTop := 0 |}
  | EvInjectStyle text_size =>
      {| location := location p; font_size := Some text_size;
         viewport_size := viewport_size p; scrollTop := scrollTop p |}
  | EvViewport w h =>
      {| location := location p; font_size := font_size p;
         viewport_size := (w, h); scrollTop := scrollTop p |}
  | EvScroll top =>
      {| location := location p; font_size := font_size p;
         viewport_size := viewport_size p; scrollTop := top |}
  | _ => p
  end.

(** The effect of a command on the output directory: [save] creates or
    replaces the entry. *)
Definition files_after (e : Event) (fs : gmap string File) : gmap string File :=
  match e with
  | EvSave name im => <[name := Png im]> fs
  | _ => fs
  end.

(** Issue a command: it takes effect and is appended to the trace. *)
Definition command (e : Event) : M unit :=
  fun w => (tt, {| page := page_after e (page w);
                   files := files_after e (files w);
                   trace := trace w ++ [e] |}).

Definition get_page : M Page := fun w => (page w, w).

(** [page.goto(url)] followed by [page.wait_for_load_state]: a fresh
    document, no injected style, scrolled to the top; the viewport stays. *)
Definition goto (html_path : string) : M unit := command (EvGoto html_path).

(** The script that prepends a [<base>] element. *)
Definition inject_base : M unit := command EvInjectBase.

(** The script that appends the [font-size] style rule. *)
Definition inject_style (text_size : string) : M unit := command (EvInjectStyle text_size).

(** [page.set_viewport_size({"width": w, "height": h})]. *)
Definition set_viewport_size (w h : Z) : M unit := command (EvViewport w h).

(** [scroller.evaluate("(el, top) => el.scrollTop = top", top)]. *)
Definition set_scrollTop (top : Z) : M unit := command (EvScroll top).

(** [page.wait_for_timeout(ms)]. *)
Definition wait_for_timeout (ms : Z) : M unit := command (EvWait ms).

(** [image.save(out_dir / name)]. *)
Definition save (name : string) (im : Image.t) : M unit := command (EvSave name im).

Definition print (line : string) : M unit := command (EvPrint line).

(** ** Formatting integers and paths *)

(** [f"{n}"] for an integer. *)
Definition format_d (n : Z) : string := NilEmpty.string_of_int (Z.to_int n).

Fixpoint zero_pad (k : nat) (d : Decimal.uint) : Decimal.uint :=
  match k with
  | O => d
  | S k' => Decimal.D0 (zero_pad k' d)
  end.

(** [f"{n:04d}"]: the sign, if any, then zeros up to a total of four
    characters, then the digits. *)
Definition format_04d (n : Z) : string :=
  match Z.to_int n with
  | Decimal.Pos d => NilEmpty.string_of_uint (zero_pad (4 - Decimal.nb_digits d) d)
  | Decimal.Neg d =>
      "-" +:+ NilEmpty.string_of_uint (zero_pad (3 - Decimal.nb_digits d) d)
  end.

(** [Path.name] of a resolved path: what follows the last slash. *)
Fixpoint path_name_from (cur : string) (s : string) : string :=
  match s with
  | EmptyString => cur
  | String c rest =>
      if Ascii.eqb c "/"%char then path_name_from rest rest else path_name_from cur rest
  end.

Definition path_name (s : string) : string := path_name_from s s.

(** The name of the file a page is saved under: [f"{idx:04d}.png"]. *)
Definition page_file_name (idx : Z) : string := format_04d idx +:+ ".png".

(** ** [int(base_height * 0.3)] *)

(** [int(n * 0.3)] with the product taken exactly: [int] truncates toward
    zero.  Python takes the product in binary64; for a base height from 0
    to 4096 that truncates to the same integer
    ([int_mul_0_3_binary64_agrees]), and what is stated about
    [floor(0.3 * base_height)] below is stated for those base heights.
    Far beyond them the two part: at [2^53 + 5] the binary64 product
    truncates to one less ([int_mul_0_3_binary64_rounds]). *)
Definition int_mul_0_3 (n : Z) : Z := Z.quot (3 * n) 10.

(** The same expression as Python evaluates it: [n] converted to binary64,
    multiplied by the binary64 nearest to 0.3, truncated toward zero.
    [None] when the product is not finite or [n] is outside [0, 2^62). *)
Definition int_mul_0_3_binary64 (n : Z) : option Z :=
  if (0 <=? n) && (n <? 2 ^ 62) then
    match Prim2SF (PrimFloat.mul (PrimFloat.of_uint63 (Uint63.of_Z n))
                                 0x1.3333333333333p-2%float) with
    | S754_zero _ => Some 0
    | S754_finite s m e =>
        let v := match e with
                 | Z0 => Zpos m
                 | Zpos p => Zpos m * 2 ^ Zpos p
                 | Zneg p => Zpos m / 2 ^ Zpos p
                 end in
        Some (if s then - v else v)
    | _ => None
    end
  else None.

(** ** The class *)

Record EPUBSmartSplitter := mkSplitter {
  epub_path : string;
  out_dir : string;
  width : Z;
  base_height : Z;
  threshold : Z;
  text_size : string
}.

Section Renderer.

(** What [Image.open(BytesIO(page.screenshot())).convert("L")] delivers
    in a given page state. *)
Variable render : Page -> Image.t.

(** What [el.scrollHeight] of the scrolling element is in a given page
    state. *)
Variable scrollHeight : Page -> Z.

(** [extract_spine_htmls]: the paths of the spine documents in reading
    order, or the exception it raises. *)
Variable extract_spine_htmls : EPUBSmartSplitter -> string + list string.

Definition screenshot : M Image.t :=
  (command EvScreenshot ;;; let* p := get_page in ret (render p))%io.

(** The crop [is_text_cut_off] inspects: the last row of the image. *)
Definition bottom_row (image : Image.t) : Image.t :=
  Image.crop image 0 (Image.height image - 1) (Image.width image) (Image.height image).

Definition is_text_cut_off (self : EPUBSmartSplitter) (image : Image.t) : bool :=
  existsb (fun pixel => pixel <? threshold self) (Image.getdata (bottom_row image)).

(** The body of the [for] loop of [find_clean_break] over the remaining
    candidates; [best_height] is returned when the loop runs out. *)
Fixpoint find_clean_break_loop (self : EPUBSmartSplitter) (current_top : Z)
    (candidates : list Z) (best_height : Z) : M Z :=
  match candidates with
  | [] => ret best_height
  | test_height :: rest =>
      (set_viewport_size (width self) test_height ;;;
       set_scrollTop current_top ;;;
       wait_for_timeout 50 ;;;
       let* shot := screenshot in
       if negb (is_text_cut_off self shot)
       then ret test_height
       else find_clean_break_loop self current_top rest best_height)%io
  end.

Definition find_clean_break (self : EPUBSmartSplitter) (current_top max_height : Z) : M Z :=
  let min_height := int_mul_0_3 (base_height self) in
  let current_height := Z.min max_height (base_height self) in
  let best_height := current_height in
  find_clean_break_loop self current_top
    (range_down current_height (min_height - 1)) best_height.

(** The binarizing function handed to [point]. *)
Definition binarize (self : EPUBSmartSplitter) (p : Z) : Z :=
  if p >? threshold self then 255 else 0.

(** One turn of the [while] loop of [process_html]; gives the height of
    the page it wrote. *)
Definition process_html_page (self : EPUBSmartSplitter)
    (total_height current_top idx : Z) : M Z :=
  (let remaining_height := total_height - current_top in
   let* viewport_height := find_clean_break self current_top remaining_height in
   set_viewport_size (width self) viewport_height ;;;
   set_scrollTop current_top ;;;
   wait_for_timeout 100 ;;;
   let* shot := screenshot in
   let bw_image := Image.point (binarize self) shot in
   let out_name := page_file_name idx in
   save out_name bw_image ;;;
   print ("Saved " +:+ out_name +:+ " (height: " +:+ format_d viewport_height +:+ "px)") ;;;
   ret viewport_height)%io.

(** The [while] loop; [None] when [fuel] turns do not reach its end. *)
Fixpoint process_html_loop (fuel : nat) (self : EPUBSmartSplitter)
    (total_height current_top idx : Z) (w : World) : option (Z * World) :=
  if current_top <? total_height then
    match fuel with
    | O => None
    | S fuel' =>
        let (viewport_height, w') := process_html_page self total_height current_top idx w in
        process_html_loop fuel' self total_height (current_top + viewport_height) (idx + 1) w'
    end
  else Some (idx, w).

Definition process_html (fuel : nat) (self : EPUBSmartSplitter)
    (html_path : string) (start_idx : Z) (w : World) : option (Z * World) :=
  let (_, w1) :=
    (goto html_path ;;; inject_base ;;; inject_style (text_size self))%io w in
  let total_height := scrollHeight (page w1) in
  process_html_loop fuel self total_height 0 start_idx w1.

(** The [for] loop of [process] over the spine documents. *)
Fixpoint process_loop (fuel : nat) (self : EPUBSmartSplitter)
    (html_files : list string) (idx : Z) (w : World) : option (Z * World) :=
  match html_files with
  | [] => Some (idx, w)
  | html_file :: rest =>
      let (_, w1) := print ("Processing " +:+ path_name html_file) w in
      match process_html fuel self html_file idx w1 with
      | None => None
      | Some (idx', w2) => process_loop fuel self rest idx' w2
      end
  end.

(** How a run ends. *)
Inductive Outcome :=
| ParserError (msg : string)
| Raised (exn : string)
| Completed (idx : Z)
| OutOfFuel.

(** The page of a fresh browser context with the base viewport. *)
Definition new_page (self : EPUBSmartSplitter) : Page :=
  {| location := "about:blank"; font_size := None;
     viewport_size := (width self, base_height self); scrollTop := 0 |}.

(** [process], started on the content of the output directory. *)
Definition process (fuel : nat) (self : EPUBSmartSplitter)
    (entries : gmap string File) : Outcome * World :=
  let w0 := {| page := new_page self; files := entries; trace := [] |} in
  match extract_spine_htmls self with
  | inl exn => (Raised exn, w0)
  | inr html_files =>
      let (_, w1) :=
        print ("Found " +:+ format_d (Z.of_nat (length html_files))
               +:+ " HTML files in EPUB spine") w0 in
      match process_loop fuel self html_files 0 w1 with
      | None => (OutOfFuel, w1)
      | Some (idx, w2) =>
          let (_, w3) :=
            print ("Done. Created " +:+ format_d idx +:+ " PNG files in " +:+ out_dir self) w2 in
          (Completed idx, w3)
      end
  end.

(** What is at the path given as output directory. *)
Inductive PathState :=
| Absent
| NotADirectory
| Directory (entries : gmap string File).

(** [outdir.iterdir()]: the names of the entries. *)
Definition iterdir (entries : gmap string File) : list string :=
  (map_to_list entries).*1.

(** [any] over a sequence of paths: every path is truthy. *)
Definition any_path (l : list string) : bool := existsb (fun _ => true) l.

(** [main] after argument parsing: the outcome, what is at the output
    path afterwards and the commands issued. *)
Definition main (fuel : nat) (args : EPUBSmartSplitter) (outdir : PathState)
  : Outcome * PathState * list Event :=
  match outdir with
  | NotADirectory => (Raised "NotADirectoryError", outdir, [])
  | Directory entries =>
      if any_path (iterdir entries)
      then (ParserError "Output directory must be empty", outdir, [])
      else
        let (res, w) := process fuel args entries in
        (res, Directory (files w), trace w)
  | Absent =>
      let (res, w) := process fuel args ∅ in
      (res, Directory (files w), trace w)
  end.

End Renderer.

(** ** The spine of the archive *)

Module Spine.

(** [s.split(c)[0]]: what precedes the first [c], all of [s] when there is
    none. *)
Fixpoint before_char (c : ascii) (s : string) : string :=
  match s with
  | EmptyString => EmptyString
  | String a rest => if Ascii.eqb a c then EmptyString else String a (before_char c rest)
  end.

(** [s.lstrip(c)] and [s.rstrip(c)] for a single character [c]. *)
Fixpoint lstrip_char (c : ascii) (s : string) : string :=
  match s with
  | EmptyString => EmptyString
  | String a rest => if Ascii.eqb a c then lstrip_char c rest else s
  end.

Fixpoint rstrip_char (c : ascii) (s : string) : string :=
  match s with
  | EmptyString => EmptyString
  | String a rest =>
      match rstrip_char c rest with
      | EmptyString => if Ascii.eqb a c then EmptyString else String a EmptyString
      | rest' => String a rest'
      end
  end.

(** [s.strip(c)]. *)
Definition strip_char (c : ascii) (s : string) : string := rstrip_char c (lstrip_char c s).

(** The namespace bound to the prefix [opf]:
    [package.tag.split('}')[0].strip('{')]. *)
Definition opf_namespace (tag : string) : string :=
  strip_char "{" (before_char "}" tag).

(** The root element of the package document: its tag, and what
    [findall(path, {"opf": ns})] finds below it, each element given by its
    attributes. *)
Record Package := mkPackage {
  tag : string;
  findall : string -> string -> list (gmap string string)
}.

(** The extracted archive as [extract_spine_htmls] reads it: whether
    [META-INF/container.xml] exists, what [find("ct:rootfiles/ct:rootfile")]
    gives in it (or the exception of the parser), the package document at a
    path below the work directory (or the exception of the parser), what
    [(opf_path.parent / href).resolve()] is and whether a resolved path
    [exists()]; either of the last two can raise instead (an [OSError] for
    a name the file system refuses, say). *)
Record Workdir := mkWorkdir {
  container_exists : bool;
  container_rootfile : string + option (gmap string string);
  parse_opf : string -> string + Package;
  resolve_href : string -> string -> string + string;
  path_exists : string -> string + bool
}.

(** The dict comprehension [{item.get("id"): item.get("href") for item in
    items}]: a later item replaces an earlier one with the same id. *)
Definition build_manifest (items : list (gmap string string))
  : gmap (option string) (option string) :=
  foldl (fun manifest item => <[item !! "id" := item !! "href"]> manifest) ∅ items.

(** Whether an itemref is kept: [it.get("linear", "yes") != "no"]. *)
Definition is_linear (it : gmap string string) : bool :=
  negb (String.eqb (default "yes" (it !! "linear")) "no").

(** [[it.get("idref") for it in itemrefs if it.get("linear", "yes") != "no"]]. *)
Definition spine_idrefs (itemrefs : list (gmap string string)) : list (option string) :=
  map (fun it => it !! "idref") (List.filter is_linear itemrefs).

(** The loop over [spine_items] that fills [htmls]; joining the directory
    of the package with a missing [href] raises [TypeError], and an
    exception of [resolve()] or [exists()] ends the loop as well. *)
Fixpoint spine_loop (workdir : Workdir) (opf_path : string)
    (manifest : gmap (option string) (option string))
    (spine_items : list (option string)) (htmls : list string) : string + list string :=
  match spine_items with
  | [] => inr htmls
  | item_id :: rest =>
      match manifest !! item_id with
      | Some None => inl "TypeError"
      | Some (Some href) =>
          match resolve_href workdir opf_path href with
          | inl exn => inl exn
          | inr html_path =>
              match path_exists workdir html_path with
              | inl exn => inl exn
              | inr true => spine_loop workdir opf_path manifest rest (htmls ++ [html_path])
              | inr false => spine_loop workdir opf_path manifest rest htmls
              end
          end
      | None => spine_loop workdir opf_path manifest rest htmls
      end
  end.

(** [extract_spine_htmls]; [unzip] is [ZipFile(epub_path).extractall(workdir)]:
    the extracted archive, or the exception it raises. *)
Definition extract_spine_htmls (unzip : string -> string + Workdir)
    (self : EPUBSmartSplitter)
  : string + list string :=
  match unzip (epub_path self) with
  | inl exn => inl exn
  | inr workdir =>
      if negb (container_exists workdir) then inl "FileNotFoundError"
      else
        match container_rootfile workdir with
        | inl exn => inl exn
        | inr None => inl "RuntimeError"
        | inr (Some rootfile) =>
            match rootfile !! "full-path" with
            | None => inl "TypeError"
            | Some opf_path =>
                match parse_opf workdir opf_path with
                | inl exn => inl exn
                | inr package =>
                    let ns := opf_namespace (tag package) in
                    let manifest :=
                      build_manifest (findall package ns "opf:manifest/opf:item") in
                    let spine_items :=
                      spine_idrefs (findall package ns "opf:spine/opf:itemref") in
                    spine_loop workdir opf_path manifest spine_items []
                end
            end
        end
  end.

(** The document a linear itemref stands for: the resolved path of the
    manifest entry of its [idref], when there is one and the file exists. *)
Definition spine_target (workdir : Workdir) (opf_path : string)
    (manifest : gmap (option string) (option string)) (item_id : option string)
  : option string :=
  match manifest !! item_id with
  | Some (Some href) =>
      match resolve_href workdir opf_path href with
      | inr html_path =>
          match path_exists workdir html_path with
          | inr true => Some html_path
          | _ => None
          end
      | inl _ => None
      end
  | _ => None
  end.

(** The path operations on the manifest entry of [item_id], if it has one
    with an [href], raise nothing. *)
Definition paths_ok (workdir : Workdir) (opf_path : string)
    (manifest : gmap (option string) (option string)) (item_id : option string) : Prop :=
  forall href, manifest !! item_id = Some (Some href) ->
    exists html_path found,
      resolve_href workdir opf_path href = inr html_path /\
      path_exists workdir html_path = inr found.

End Spine.

(** ** Observing a run through its trace *)

(** The page state after a sequence of commands. *)
Definition page_after_trace (tr : list Event) (p : Page) : Page :=
  foldl (fun p e => page_after e p) p tr.

(** The world after a sequence of commands. *)
Definition run_trace (tr : list Event) (w : World) : World :=
  foldl (fun w e => snd (command e w)) w tr.

Definition is_screenshot (e : Event) : bool :=
  match e with EvScreenshot => true | _ => false end.

(** The number of capture operations in a trace. *)
Definition captures (tr : list Event) : nat := length (filter is_screenshot tr).

(** The capture operations a computation performs when started in [w]. *)
Definition captures_during {A} (m : M A) (w : World) : nat :=
  (captures (trace (snd (m w))) - captures (trace w))%nat.

(** A page written to the output directory, with the scroll offset and the
    viewport height in force when it was written. *)
Record Saved := mkSaved {
  sv_name : string;
  sv_top : Z;
  sv_height : Z;
  sv_image : Image.t
}.

(** The pages written by the commands [tr], issued from page state [p]. *)
Fixpoint saved_pages (p : Page) (tr : list Event) : list Saved :=
  match tr with
  | [] => []
  | e :: tr' =>
      match e with
      | EvSave name im =>
          {| sv_name := name; sv_top := scrollTop p;
             sv_height := snd (viewport_size p); sv_image := im |}
          :: saved_pages (page_after e p) tr'
      | _ => saved_pages (page_after e p) tr'
      end
  end.

(** The slice of the document a written page shows: [(top, top + height)]. *)
Definition interval (s : Saved) : Z * Z := (sv_top s, sv_top s + sv_height s).

(** The intervals follow each other from [a] to [b]: each starts where the
    one before ends and none is empty. *)
Fixpoint tiling (a : Z) (ivs : list (Z * Z)) (b : Z) : Prop :=
  match ivs with
  | [] => a = b
  | iv :: rest => iv.1 = a /\ a < iv.2 /\ tiling iv.2 rest b
  end.

(** The commands of one probe of [find_clean_break] at height [h]. *)
Definition probe_events (self : EPUBSmartSplitter) (current_top h : Z) : list Event :=
  [EvViewport (width self) h; EvScroll current_top; EvWait 50; EvScreenshot].

(** The page state in which the probe at height [h] is captured. *)
Definition probe_page (self : EPUBSmartSplitter) (p : Page) (current_top h : Z) : Page :=
  {| location := location p; font_size := font_size p;
     viewport_size := (width self, h); scrollTop := current_top |}.

(** Whether the probe at height [h] shows a clean bottom row: what
    [not self.is_text_cut_off(screenshot)] is for that candidate. *)
Definition clean_at (render : Page -> Image.t) (self : EPUBSmartSplitter)
    (p : Page) (current_top h : Z) : bool :=
  negb (is_text_cut_off self (render (probe_page self p current_top h))).

(** The commands of one turn of the [while] loop of [process_html] once
    the locator has returned [h]; [im] is the image saved. *)
Definition page_events (self : EPUBSmartSplitter) (current_top idx h : Z)
    (im : Image.t) : list Event :=
  [EvViewport (width self) h; EvScroll current_top; EvWait 100; EvScreenshot;
   EvSave (page_file_name idx) im;
   EvPrint ("Saved " +:+ page_file_name idx +:+ " (height: " +:+ format_d h +:+ "px)")].

(** The commands [process_html] issues before it reads the total height. *)
Definition load_events (self : EPUBSmartSplitter) (html_path : string) : list Event :=
  [EvGoto html_path; EvInjectBase; EvInjectStyle (text_size self)].

(** The scroll offsets at which the [while] loop of [process_html] calls
    the locator, for a document of height [total_height] shown in [w]. *)
Inductive break_point (render : Page -> Image.t) (self : EPUBSmartSplitter)
    (total_height : Z) (w : World) : Z -> Prop :=
| break_first : break_point render self total_height w 0
| break_next (top : Z) :
    break_point render self total_height w top ->
    top < total_height ->
    break_point render self total_height w
      (top + fst (find_clean_break render self top (total_height - top) w)).

(** The pages the commands [tr] write are numbered from [idx] up to, not
    including, [idx'], in the order they are written, and each is the
    binarized image of a capture. *)
Definition numbered (render : Page -> Image.t) (self : EPUBSmartSplitter)
    (p : Page) (tr : list Event) (idx idx' : Z) : Prop :=
  idx <= idx' /\
  map sv_name (saved_pages p tr) = map page_file_name (range_up idx idx') /\
  Forall (fun s => exists q, sv_image s = Image.point (binarize self) (render q))
         (saved_pages p tr).

(** The output directory after the pages [pages] are saved into [fs]. *)
Definition save_all (pages : list Saved) (fs : gmap string File) : gmap string File :=
  foldl (fun fs s => <[sv_name s := Png (sv_image s)]> fs) fs pages.

(** The documents the commands [tr] navigate to, in order. *)
Definition gotos (tr : list Event) : list string :=
  omap (fun e => match e with EvGoto html_path => Some html_path | _ => None end) tr.

(** The candidates up to and including the first that satisfies [f]. *)
Fixpoint take_until {A} (f : A -> bool) (l : list A) : list A :=
  match l with
  | [] => []
  | x :: rest => if f x then [x] else x :: take_until f rest
  end.

(** ** Test documents *)

(** A rendering in which whole rows are ink (0) or paper (255): row [y] of
    the viewport shows document row [top + y]. *)
Definition strip_image (w h : Z) (ink : Z -> bool) (top : Z) : Image.t :=
  {| Image.width := w;
     Image.height := h;
     Image.getdata :=
       flat_map (fun y => repeat (if ink (top + y) then 0 else 255) (Z.to_nat w))
                (range_up 0 h) |}.

Definition strip_render (ink : Z -> bool) (p : Page) : Image.t :=
  strip_image (viewport_size p).1 (viewport_size p).2 ink (scrollTop p).

(** A rendering of uniform gray [v]. *)
Definition flat_render (v : Z) (p : Page) : Image.t :=
  {| Image.width := (viewport_size p).1;
     Image.height := (viewport_size p).2;
     Image.getdata := repeat v (Z.to_nat ((viewport_size p).1 * (viewport_size p).2)) |}.

(** Lines of text six rows tall separated by two rows of paper. *)
Definition lined (y : Z) : bool := y mod 8 <? 6.

(** The splitter with the defaults of the command line. *)
Definition defaults : EPUBSmartSplitter :=
  {| epub_path := "book.epub"; out_dir := "out"; width := 758; base_height := 940;
     threshold := 220; text_size := "16px" |}.

(** A splitter small enough to run by hand. *)
Definition demo : EPUBSmartSplitter :=
  {| epub_path := "book.epub"; out_dir := "out"; width := 2; base_height := 10;
     threshold := 220; text_size := "16px" |}.

Definition blank_world (self : EPUBSmartSplitter) : World :=
  {| page := new_page self; files := ∅; trace := [] |}.

(** A book of two chapters, each 25 rows tall. *)
Definition demo_spine (self : EPUBSmartSplitter) : string + list string :=
  inr ["/book/OEBPS/ch1.xhtml"; "/book/OEBPS/ch2.xhtml"].

Definition demo_height (p : Page) : Z := 25.

(** A package with the manifest entry [ch1] given twice, a spine entry that
    is not linear and one that is not in the manifest. *)
Definition demo_package : Spine.Package :=
  {| Spine.tag := "{http://www.idpf.org/2007/opf}package";
     Spine.findall ns path :=
       if negb (String.eqb ns "http://www.idpf.org/2007/opf") then []
       else if String.eqb path "opf:manifest/opf:item" then
         [ {["id" := "ch1"; "href" := "draft.xhtml"]};
           {["id" := "ch2"; "href" := "ch2.xhtml"]};
           {["id" := "ch1"; "href" := "ch1.xhtml"]};
           {["id" := "notes"; "href" := "notes.xhtml"]} ]
       else if String.eqb path "opf:spine/opf:itemref" then
         [ {["idref" := "ch1"]};
           {["idref" := "notes"; "linear" := "no"]};
           {["idref" := "gone"]};
           {["idref" := "ch2"; "linear" := "yes"]} ]
       else [] |}.

Definition demo_workdir : Spine.Workdir :=
  {| Spine.container_exists := true;
     Spine.container_rootfile := inr (Some {["full-path" := "OEBPS/content.opf"]});
     Spine.parse_opf path :=
       if String.eqb path "OEBPS/content.opf" then inr demo_package
       else inl "FileNotFoundError";
     Spine.resolve_href opf_path href := inr ("/book/OEBPS/" +:+ href);
     Spine.path_exists path := inr true |}.

Definition demo_unzip (epub : string) : string + Spine.Workdir := inr demo_workdir.


(** A package whose manifest entry [ch2] has no [href]. *)
Definition broken_package : Spine.Package :=
  {| Spine.tag := "{http://www.idpf.org/2007/opf}package";
     Spine.findall ns path :=
       if String.eqb path "opf:manifest/opf:item" then
         [ {["id" := "ch1"; "href" := "ch1.xhtml"]}; {["id" := "ch2"]} ]
       else [ {["idref" := "ch1"]}; {["idref" := "ch2"]} ] |}.

Definition broken_workdir : Spine.Workdir :=
  {| Spine.container_exists := true;
     Spine.container_rootfile := inr (Some {["full-path" := "content.opf"]});
     Spine.parse_opf path := inr broken_package;
     Spine.resolve_href opf_path href := inr ("/book/" +:+ href);
     Spine.path_exists path := inr true |}.

(** [demo] with the search switched off. *)
Definition demo_off : EPUBSmartSplitter :=
  {| epub_path := "book.epub"; out_dir := "out"; width := 2; base_height := 10;
     threshold := 0; text_size := "16px" |}.

(** The world after [demo] has processed the first chapter of the test
    book. *)
Definition demo_chapter_world : World :=
  match process_html (strip_render lined) demo_height 30 demo "/book/OEBPS/ch1.xhtml" 0
          (blank_world demo) with
  | Some (_, w) => w
  | None => blank_world demo
  end.

(** A capture three rows tall whose every pixel has the value of the
    threshold of [demo]. *)
Definition threshold_gray : Image.t :=
  flat_render (threshold demo) (probe_page demo (new_page demo) 0 3).

(** * Properties *)

(** ** Ranges *)

Lemma range_down_nil (a b : Z) : a <= b -> range_down a b = [].
Proof.
  intros H. unfold range_down.
  replace (Z.to_nat (a - b)) with O by lia. reflexivity.
Qed.

Lemma range_down_cons (a b : Z) : b < a -> range_down a b = a :: range_down (a - 1) b.
Proof.
  intros H. unfold range_down.
  replace (Z.to_nat (a - b)) with (S (Z.to_nat (a - 1 - b))) by lia.
  cbn [seq map]. f_equal; [lia |].
  rewrite <- seq_shift, map_map.
  apply map_ext. intros i. lia.
Qed.

Lemma range_down_length (a b : Z) : Z.of_nat (length (range_down a b)) = Z.max 0 (a - b).
Proof. unfold range_down. rewrite length_map, length_seq. lia. Qed.

Lemma range_down_elem (a b h : Z) : In h (range_down a b) <-> b < h <= a.
Proof.
  unfold range_down. rewrite in_map_iff. split.
  - intros (i & <- & Hi). apply in_seq in Hi. lia.
  - intros Hh. exists (Z.to_nat (a - h)). split; [lia |]. apply in_seq. lia.
Qed.

(** Induction over a descending range, from its top. *)
Lemma range_down_ind (b : Z) (P : Z -> Prop) :
  (forall a, a <= b -> P a) ->
  (forall a, b < a -> P (a - 1) -> P a) ->
  forall a, P a.
Proof.
  intros Hnil Hcons a.
  remember (Z.to_nat (a - b)) as n eqn:En.
  revert a En. induction n as [| n IH]; intros a En.
  - apply Hnil. lia.
  - apply Hcons; [lia |]. apply IH. lia.
Qed.


Lemma find_range_down_Some (f : Z -> bool) (b r : Z) (a : Z) :
  List.find f (range_down a b) = Some r <->
  b < r <= a /\ f r = true /\ (forall h, r < h <= a -> f h = false).
Proof.
  revert a. apply (range_down_ind b); intros a Ha.
  - rewrite range_down_nil by lia. cbn. split; [discriminate | lia].
  - intros IH. rewrite range_down_cons by lia. cbn [List.find].
    destruct (f a) eqn:Ea.
    + split.
      * intros [= <-]. split; [lia |]. split; [exact Ea |]. intros h Hh. lia.
      * intros (Hr & Hfr & Hall).
        destruct (Z.eq_dec r a) as [-> | Hne]; [reflexivity |].
        rewrite (Hall a) in Ea by lia. discriminate.
    + rewrite IH. split.
      * intros (Hr & Hfr & Hall). split; [lia |]. split; [exact Hfr |].
        intros h Hh. destruct (Z.eq_dec h a) as [-> | Hne]; [exact Ea |].
        apply Hall. lia.
      * intros (Hr & Hfr & Hall).
        assert (r <> a) by (intros ->; congruence).
        split; [lia |]. split; [exact Hfr |]. intros h Hh. apply Hall. lia.
Qed.

Lemma take_until_find_None {A} (f : A -> bool) (l : list A) :
  List.find f l = None -> take_until f l = l.
Proof.
  induction l as [| x l IH]; cbn; [reflexivity |].
  destruct (f x); [discriminate |]. intros H. f_equal. apply IH, H.
Qed.


Lemma take_until_incl {A} (f : A -> bool) (l : list A) :
  (length (take_until f l) <= length l)%nat.
Proof.
  induction l as [| x l IH]; cbn; [lia |].
  destruct (f x); cbn; lia.
Qed.

(** ** Traces *)

Lemma run_trace_app (tr1 tr2 : list Event) (w : World) :
  run_trace (tr1 ++ tr2) w = run_trace tr2 (run_trace tr1 w).
Proof. apply foldl_app. Qed.

Lemma run_trace_trace (tr : list Event) (w : World) :
  trace (run_trace tr w) = trace w ++ tr.
Proof.
  unfold run_trace. revert w. induction tr as [| e tr IH]; intros w; cbn [foldl].
  - symmetry. apply app_nil_r.
  - rewrite IH. cbn. rewrite <- app_assoc. reflexivity.
Qed.

Lemma run_trace_page (tr : list Event) (w : World) :
  page (run_trace tr w) = page_after_trace tr (page w).
Proof.
  unfold run_trace, page_after_trace. revert w.
  induction tr as [| e tr IH]; intros w; cbn [foldl]; [reflexivity |].
  rewrite IH. reflexivity.
Qed.

Lemma captures_app (tr1 tr2 : list Event) :
  captures (tr1 ++ tr2) = (captures tr1 + captures tr2)%nat.
Proof. unfold captures. rewrite filter_app, length_app. reflexivity. Qed.

Lemma captures_probes (self : EPUBSmartSplitter) (top : Z) (hs : list Z) :
  captures (flat_map (probe_events self top) hs) = length hs.
Proof.
  induction hs as [| h hs IH]; [reflexivity |].
  cbn [flat_map]. rewrite captures_app, IH. reflexivity.
Qed.

Lemma saved_pages_app (p : Page) (tr1 tr2 : list Event) :
  saved_pages p (tr1 ++ tr2) =
  saved_pages p tr1 ++ saved_pages (page_after_trace tr1 p) tr2.
Proof.
  revert p. induction tr1 as [| e tr1 IH]; intros p; [reflexivity |].
  cbn [app saved_pages]. destruct e; cbn; rewrite IH; reflexivity.
Qed.

Lemma saved_pages_probes (self : EPUBSmartSplitter) (top : Z) (hs : list Z) (p : Page) :
  saved_pages p (flat_map (probe_events self top) hs) = [].
Proof.
  revert p. induction hs as [| h hs IH]; intros p; [reflexivity |].
  cbn [flat_map]. rewrite saved_pages_app. cbn. apply IH.
Qed.

(** ** The clean-break locator *)

Section Locator.

Variable render : Page -> Image.t.

(** One turn of the loop: the probe, then either the candidate or the
    rest of the loop. *)
Lemma find_clean_break_loop_cons (self : EPUBSmartSplitter) (top h : Z)
    (rest : list Z) (best : Z) (w : World) :
  find_clean_break_loop render self top (h :: rest) best w =
  if clean_at render self (page w) top h
  then (h, run_trace (probe_events self top h) w)
  else find_clean_break_loop render self top rest best
         (run_trace (probe_events self top h) w).
Proof.
  unfold clean_at.
  change (find_clean_break_loop render self top (h :: rest) best w) with
    ((if negb (is_text_cut_off self (render (probe_page self (page w) top h)))
      then ret h
      else find_clean_break_loop render self top rest best)
       (run_trace (probe_events self top h) w)).
  destruct (negb _); reflexivity.
Qed.

(** The loop probes the candidates in order up to the first clean one
    and gives that one, or [best_height] when there is none. *)
Lemma find_clean_break_loop_spec (self : EPUBSmartSplitter) (top : Z)
    (candidates : list Z) (best : Z) (w : World) :
  find_clean_break_loop render self top candidates best w =
  (match List.find (clean_at render self (page w) top) candidates with
   | Some h => h
   | None => best
   end,
   run_trace (flat_map (probe_events self top)
                       (take_until (clean_at render self (page w) top) candidates)) w).
Proof.
  revert w. induction candidates as [| h rest IH]; intros w; [reflexivity |].
  rewrite find_clean_break_loop_cons.
  cbn [List.find take_until].
  destruct (clean_at render self (page w) top h) eqn:Eclean.
  - cbn [flat_map]. rewrite app_nil_r. reflexivity.
  - rewrite IH.
    change (clean_at render self (page (run_trace (probe_events self top h) w)) top)
      with (clean_at render self (page w) top).
    cbn [flat_map]. rewrite run_trace_app. reflexivity.
Qed.

(** The height [find_clean_break] gives and the world it leaves. *)
Lemma find_clean_break_spec (self : EPUBSmartSplitter) (top max_height : Z) (w : World) :
  let min_height := int_mul_0_3 (base_height self) in
  let start := Z.min max_height (base_height self) in
  let clean := clean_at render self (page w) top in
  find_clean_break render self top max_height w =
  (match List.find clean (range_down start (min_height - 1)) with
   | Some h => h
   | None => start
   end,
   run_trace (flat_map (probe_events self top)
                       (take_until clean (range_down start (min_height - 1)))) w).
Proof. cbv zeta. unfold find_clean_break. apply find_clean_break_loop_spec. Qed.

Lemma is_text_cut_off_false (self : EPUBSmartSplitter) (image : Image.t) :
  is_text_cut_off self image = false <->
  Forall (fun pixel => ~ pixel < threshold self) (Image.getdata (bottom_row image)).
Proof.
  unfold is_text_cut_off. rewrite Forall_forall. split.
  - intros H pixel Hin Hlt.
    assert (existsb (fun pixel => pixel <? threshold self)
              (Image.getdata (bottom_row image)) = true) as Habs.
    { apply existsb_exists. exists pixel. split; [apply list_elem_of_In, Hin | lia]. }
    congruence.
  - intros H. apply not_true_is_false. intros Habs.
    apply existsb_exists in Habs as (pixel & Hin & Hlt).
    apply (H pixel); [apply list_elem_of_In, Hin | lia].
Qed.

Lemma clean_at_true (self : EPUBSmartSplitter) (p : Page) (top h : Z) :
  clean_at render self p top h = true <->
  Forall (fun pixel => ~ pixel < threshold self)
         (Image.getdata (bottom_row (render (probe_page self p top h)))).
Proof.
  unfold clean_at. rewrite negb_true_iff. apply is_text_cut_off_false.
Qed.

Lemma int_mul_0_3_floor (n : Z) : 0 <= n -> int_mul_0_3 n = 3 * n / 10.
Proof. intros H. unfold int_mul_0_3. apply Z.quot_div_nonneg; lia. Qed.

Lemma int_mul_0_3_le (n : Z) : 0 <= n -> 0 <= int_mul_0_3 n <= n.
Proof.
  intros H. rewrite int_mul_0_3_floor by lia. split.
  - apply Z.div_pos; lia.
  - apply Z.div_le_upper_bound; lia.
Qed.

(** The value of [find_clean_break] lies among its candidates, or is the
    start height. *)
Lemma find_clean_break_range (self : EPUBSmartSplitter) (top max_height : Z) (w : World) :
  let min_height := int_mul_0_3 (base_height self) in
  let start := Z.min max_height (base_height self) in
  let r := fst (find_clean_break render self top max_height w) in
  r = start \/ min_height <= r <= start.
Proof.
  cbv zeta. rewrite find_clean_break_spec. cbn [fst].
  destruct (List.find _ _) as [h |] eqn:E; [| left; reflexivity].
  right. apply find_range_down_Some in E. lia.
Qed.

Lemma find_clean_break_captures (self : EPUBSmartSplitter) (top max_height : Z) (w : World) :
  captures_during (find_clean_break render self top max_height) w =
  length (take_until (clean_at render self (page w) top)
            (range_down (Z.min max_height (base_height self))
                        (int_mul_0_3 (base_height self) - 1))).
Proof.
  unfold captures_during. rewrite find_clean_break_spec. cbn [snd].
  rewrite run_trace_trace, captures_app, captures_probes. lia.
Qed.

End Locator.

Lemma forallb_range_down (f : Z -> bool) (a b : Z) :
  forallb f (range_down a b) = true -> forall h, b < h <= a -> f h = true.
Proof.
  intros H h Hh. rewrite forallb_forall in H. apply H, range_down_elem, Hh.
Qed.

(** ** [int(base_height * 0.3)] in binary64 *)

(** For every base height from 0 to 4096 the binary64 product truncates
    to the same integer as the exact product. *)
Lemma int_mul_0_3_binary64_agrees (n : Z) :
  0 <= n <= 4096 -> int_mul_0_3_binary64 n = Some (int_mul_0_3 n).
Proof.
  intros Hn.
  pose proof (forallb_range_down
                (fun n => match int_mul_0_3_binary64 n with
                          | Some v => v =? int_mul_0_3 n
                          | None => false
                          end)
                4096 (-1) ltac:(vm_compute; reflexivity) n ltac:(lia)) as Hn'.
  cbv beta in Hn'. destruct (int_mul_0_3_binary64 n) as [v |]; [| discriminate Hn'].
  f_equal. apply Z.eqb_eq, Hn'.
Qed.

(** Beyond [2^53] the base height itself is rounded before the product is
    taken, and the result can fall below the exact one. *)
Lemma int_mul_0_3_binary64_rounds :
  int_mul_0_3_binary64 (2 ^ 53 + 5) = Some (int_mul_0_3 (2 ^ 53 + 5) - 1).
Proof. vm_compute. reflexivity. Qed.

Section LocatorClaims.

Variable render : Page -> Image.t.

(** The capture of the probe at height [h] from scroll offset [top]. *)
Local Abbreviation capture self w top h := (render (probe_page self (page w) top h)).

(** The bottom row of an image holds no pixel strictly below the
    threshold. *)
Local Abbreviation bottom_clean self im :=
  (Forall (fun pixel => ~ pixel < threshold self) (Image.getdata (bottom_row im))).

(** C1, as amended: when the start height [min(max_height, base_height)]
    is at least the minimum height and no candidate height between the
    two yields a capture with a clean bottom row, [find_clean_break]
    returns the start height, the value [best_height] was initialised
    with. *)
Theorem find_clean_break_none_clean (self : EPUBSmartSplitter)
    (top max_height : Z) (w : World) :
  int_mul_0_3 (base_height self) <= Z.min max_height (base_height self) ->
  (forall h, int_mul_0_3 (base_height self) <= h <= Z.min max_height (base_height self) ->
             ~ bottom_clean self (capture self w top h)) ->
  fst (find_clean_break render self top max_height w) =
  Z.min max_height (base_height self).
Proof.
  intros _ Hnone. rewrite find_clean_break_spec. cbn [fst].
  destruct (List.find _ _) as [r |] eqn:E; [| reflexivity].
  apply find_range_down_Some in E as (Hr & Hclean & _).
  apply clean_at_true in Hclean. exfalso. apply (Hnone r); [lia | exact Hclean].
Qed.


(** C4: for a base height from 0 to 4096, where the minimum height
    [int(base_height * 0.3)] Python computes in binary64 is
    [floor(0.3 * base_height)], the height returned by [find_clean_break]
    lies between that floor and [min(base_height, remaining_height)],
    except when the remaining height is below the floor: then it is the
    remaining height. *)
Theorem find_clean_break_bounds (self : EPUBSmartSplitter)
    (top remaining_height : Z) (w : World) :
  0 <= base_height self <= 4096 ->
  int_mul_0_3_binary64 (base_height self) = Some (3 * base_height self / 10) /\
  (3 * base_height self / 10 <= remaining_height ->
   3 * base_height self / 10
     <= fst (find_clean_break render self top remaining_height w)
     <= Z.min (base_height self) remaining_height) /\
  (remaining_height < 3 * base_height self / 10 ->
   fst (find_clean_break render self top remaining_height w) = remaining_height).
Proof.
  intros Hbase.
  assert (0 <= base_height self) as Hbase0 by lia.
  pose proof (find_clean_break_range render self top remaining_height w) as Hrange.
  pose proof (int_mul_0_3_le _ Hbase0) as Hmin.
  pose proof (int_mul_0_3_binary64_agrees _ Hbase) as Hfloat.
  cbv zeta in Hrange. rewrite (int_mul_0_3_floor _ Hbase0) in Hrange, Hmin, Hfloat.
  split; [exact Hfloat |]. split; intros Hrem; lia.
Qed.

(** C5: when the maximum candidate height is below the minimum height,
    [find_clean_break] returns [min(max_height, base_height)] and leaves
    the world as it found it: no viewport change, no capture and so no
    check of a bottom row.  For a base height that is not negative that
    value is [max_height], the remaining height. *)
Theorem find_clean_break_below_floor (self : EPUBSmartSplitter)
    (top max_height : Z) (w : World) :
  max_height < int_mul_0_3 (base_height self) ->
  find_clean_break render self top max_height w =
    (Z.min max_height (base_height self), w) /\
  captures_during (find_clean_break render self top max_height) w = O /\
  (0 <= base_height self -> Z.min max_height (base_height self) = max_height).
Proof.
  intros Hlt.
  assert (range_down (Z.min max_height (base_height self))
            (int_mul_0_3 (base_height self) - 1) = []) as Hnil
    by (apply range_down_nil; lia).
  split; [| split].
  - rewrite find_clean_break_spec, Hnil. reflexivity.
  - rewrite find_clean_break_captures, Hnil. reflexivity.
  - intros Hbase. pose proof (int_mul_0_3_le _ Hbase). lia.
Qed.

(** C8, as amended: [find_clean_break] performs one capture per candidate
    it probes and at most [max(0, start - min_height + 1)] captures in
    all, where [start = min(max_height, base_height)]. *)
Theorem find_clean_break_capture_bound (self : EPUBSmartSplitter)
    (top max_height : Z) (w : World) :
  exists r probed,
    find_clean_break render self top max_height w =
      (r, run_trace (flat_map (probe_events self top) probed) w) /\
    captures_during (find_clean_break render self top max_height) w = length probed /\
    Z.of_nat (length probed) <=
      Z.max 0 (Z.min max_height (base_height self) - int_mul_0_3 (base_height self) + 1).
Proof.
  eexists. eexists. split; [apply find_clean_break_spec |].
  split; [apply find_clean_break_captures |].
  etransitivity; [apply inj_le, take_until_incl |].
  rewrite range_down_length. lia.
Qed.

End LocatorClaims.

(** ** The pagination driver *)

Section Driver.

Variable render : Page -> Image.t.

(** Probing changes neither the document shown nor its injected style. *)
Lemma probe_page_run_probes (self self' : EPUBSmartSplitter) (top : Z) (hs : list Z)
    (w : World) (top' h' : Z) :
  probe_page self' (page (run_trace (flat_map (probe_events self top) hs) w)) top' h' =
  probe_page self' (page w) top' h'.
Proof.
  revert w. induction hs as [| h hs IH]; intros w; [reflexivity |].
  cbn [flat_map]. rewrite run_trace_app, IH. reflexivity.
Qed.

Lemma probe_page_ext (self : EPUBSmartSplitter) (p p' : Page) (top h : Z) :
  location p = location p' -> font_size p = font_size p' ->
  probe_page self p top h = probe_page self p' top h.
Proof. intros Hloc Hfont. unfold probe_page. rewrite Hloc, Hfont. reflexivity. Qed.

Lemma probe_page_same_doc (self : EPUBSmartSplitter) (p p' : Page) :
  probe_page self p 0 0 = probe_page self p' 0 0 ->
  forall top h, probe_page self p top h = probe_page self p' top h.
Proof.
  intros H top h. injection H as Hloc Hfont. apply probe_page_ext; assumption.
Qed.

(** What the locator returns depends on the world only through the
    document shown and its injected style. *)
Lemma find_clean_break_same_doc (self : EPUBSmartSplitter) (top max_height : Z)
    (w w' : World) :
  probe_page self (page w) 0 0 = probe_page self (page w') 0 0 ->
  fst (find_clean_break render self top max_height w) =
  fst (find_clean_break render self top max_height w').
Proof.
  intros H. rewrite !find_clean_break_spec. cbn [fst].
  assert (forall l, List.find (clean_at render self (page w) top) l =
                    List.find (clean_at render self (page w') top) l) as Hfind.
  { intros l. induction l as [| h l IH]; [reflexivity |]. cbn [List.find].
    unfold clean_at at 1 3. rewrite (probe_page_same_doc _ _ _ H), IH. reflexivity. }
  rewrite Hfind. reflexivity.
Qed.

Lemma find_clean_break_world (self : EPUBSmartSplitter) (top max_height : Z) (w : World) :
  exists hs,
    snd (find_clean_break render self top max_height w) =
    run_trace (flat_map (probe_events self top) hs) w.
Proof. eexists. rewrite find_clean_break_spec. reflexivity. Qed.

Lemma find_clean_break_le (self : EPUBSmartSplitter) (top max_height : Z) (w : World) :
  fst (find_clean_break render self top max_height w) <= max_height.
Proof.
  pose proof (find_clean_break_range render self top max_height w) as H.
  cbv zeta in H. lia.
Qed.

(** For a base height of four pixels or more the locator never returns
    less than one pixel when asked for at most a positive height. *)
Lemma find_clean_break_pos (self : EPUBSmartSplitter) (top max_height : Z) (w : World) :
  4 <= base_height self -> 1 <= max_height ->
  1 <= fst (find_clean_break render self top max_height w).
Proof.
  intros Hbase Hmax.
  pose proof (find_clean_break_range render self top max_height w) as H.
  cbv zeta in H. rewrite int_mul_0_3_floor in H by lia.
  assert (1 <= 3 * base_height self / 10) by (apply Z.div_le_lower_bound; lia).
  lia.
Qed.

(** One turn of the [while] loop: the probes of the locator, then the
    commands that write the page. *)
Lemma process_html_page_spec (self : EPUBSmartSplitter) (total top idx : Z) (w : World) :
  exists hs,
    let h := fst (find_clean_break render self top (total - top) w) in
    process_html_page render self total top idx w =
    (h, run_trace
          (flat_map (probe_events self top) hs ++
           page_events self top idx h
             (Image.point (binarize self) (render (probe_page self (page w) top h)))) w).
Proof.
  destruct (find_clean_break_world self top (total - top) w) as [hs Hw].
  exists hs. cbv zeta. unfold process_html_page, bind.
  destruct (find_clean_break render self top (total - top) w) as [h w1] eqn:E.
  cbn [fst snd] in *. subst w1. rewrite run_trace_app.
  rewrite <- (probe_page_run_probes self self top hs w top h).
  reflexivity.
Qed.

Lemma saved_pages_turn (self : EPUBSmartSplitter) (top idx h : Z) (im : Image.t)
    (hs : list Z) (p : Page) :
  saved_pages p (flat_map (probe_events self top) hs ++ page_events self top idx h im) =
  [{| sv_name := page_file_name idx; sv_top := top; sv_height := h; sv_image := im |}].
Proof. rewrite saved_pages_app, saved_pages_probes. reflexivity. Qed.

Lemma page_after_turn (self : EPUBSmartSplitter) (top idx h : Z) (im : Image.t)
    (hs : list Z) (p : Page) :
  page_after_trace (flat_map (probe_events self top) hs ++ page_events self top idx h im) p =
  probe_page self p top h.
Proof.
  unfold page_after_trace. rewrite foldl_app.
  change (foldl (fun p e => page_after e p) p (flat_map (probe_events self top) hs))
    with (page_after_trace (flat_map (probe_events self top) hs) p).
  set (p1 := page_after_trace _ p).
  assert (probe_page self p1 top h = probe_page self p top h) as <-.
  { pose proof (probe_page_run_probes self self top hs
                  {| page := p; files := ∅; trace := [] |} top h) as H.
    rewrite run_trace_page in H. exact H. }
  reflexivity.
Qed.

Lemma range_up_nil (a b : Z) : b <= a -> range_up a b = [].
Proof.
  intros H. unfold range_up. replace (Z.to_nat (b - a)) with O by lia. reflexivity.
Qed.

Lemma range_up_cons (a b : Z) : a < b -> range_up a b = a :: range_up (a + 1) b.
Proof.
  intros H. unfold range_up.
  replace (Z.to_nat (b - a)) with (S (Z.to_nat (b - (a + 1)))) by lia.
  cbn [seq map]. f_equal; [lia |].
  rewrite <- seq_shift, map_map. apply map_ext. intros i. lia.
Qed.

Lemma range_up_elem (a b i : Z) : In i (range_up a b) <-> a <= i < b.
Proof.
  unfold range_up. rewrite in_map_iff. split.
  - intros (k & <- & Hk). apply in_seq in Hk. lia.
  - intros Hi. exists (Z.to_nat (i - a)). split; [lia |]. apply in_seq. lia.
Qed.

Lemma range_up_length (a b : Z) : length (range_up a b) = Z.to_nat (b - a).
Proof. unfold range_up. rewrite length_map, length_seq. reflexivity. Qed.

(** The run of the [while] loop from a break point [top], when every
    height the locator returns at a break point is positive: it ends
    within [total - top] turns, and the pages it writes follow each other
    from [top] to the end of the document, under the names of the indices
    from [idx] on, each the binarized capture of its slice. *)
Lemma process_html_loop_run (self : EPUBSmartSplitter) (total : Z) (w0 : World) :
  (forall top, break_point render self total w0 top -> top < total ->
               1 <= fst (find_clean_break render self top (total - top) w0)) ->
  forall (fuel : nat) (top idx : Z) (w : World),
    break_point render self total w0 top ->
    probe_page self (page w) 0 0 = probe_page self (page w0) 0 0 ->
    (Z.to_nat (total - top) <= fuel)%nat ->
    exists idx' tr,
      process_html_loop render fuel self total top idx w = Some (idx', run_trace tr w) /\
      idx <= idx' /\
      tiling top (map interval (saved_pages (page w) tr)) (Z.max top total) /\
      map sv_name (saved_pages (page w) tr) = map page_file_name (range_up idx idx') /\
      Forall (fun s => sv_image s =
                       Image.point (binarize self)
                         (render (probe_page self (page w0) (sv_top s) (sv_height s))))
             (saved_pages (page w) tr).
Proof.
  intros Hpos fuel. induction fuel as [| fuel IH]; intros top idx w Hbp Hdoc Hfuel.
  - exists idx, []. cbn [process_html_loop].
    replace (top <? total) with false by lia.
    split; [reflexivity |]. split; [lia |]. split; [cbn; lia |].
    rewrite range_up_nil by lia. split; [reflexivity | constructor].
  - cbn [process_html_loop]. destruct (top <? total) eqn:Elt.
    + apply Z.ltb_lt in Elt.
      destruct (process_html_page_spec self total top idx w) as [hs Hpage].
      cbv zeta in Hpage. rewrite Hpage. clear Hpage.
      rewrite (find_clean_break_same_doc self top (total - top) w w0 Hdoc).
      set (h := fst (find_clean_break render self top (total - top) w0)).
      assert (1 <= h) as Hh1 by (apply Hpos; assumption).
      assert (h <= total - top) as Hh2 by apply find_clean_break_le.
      set (im := Image.point (binarize self) (render (probe_page self (page w) top h))).
      set (turn := flat_map (probe_events self top) hs ++ page_events self top idx h im).
      assert (page (run_trace turn w) = probe_page self (page w) top h) as Hpage'.
      { rewrite run_trace_page. apply page_after_turn. }
      destruct (IH (top + h) (idx + 1) (run_trace turn w)) as (idx' & tr & Hrun & Hle & Htil & Hnames & Himgs).
      { apply break_next; assumption. }
      { rewrite Hpage'. exact Hdoc. }
      { lia. }
      exists idx', (turn ++ tr). rewrite run_trace_app.
      split; [exact Hrun |]. split; [lia |].
      rewrite saved_pages_app.
      rewrite <- (run_trace_page turn w).
      unfold turn at 1 3 5. rewrite saved_pages_turn.
      cbn [app map interval sv_top sv_height sv_name tiling fst snd].
      split; [| split].
      * split; [reflexivity |]. split; [lia |].
        replace (Z.max top total) with (Z.max (top + h) total) by lia. exact Htil.
      * rewrite (range_up_cons idx idx') by lia. cbn [map]. f_equal. exact Hnames.
      * constructor; [| exact Himgs]. cbn [sv_image sv_top sv_height].
        unfold im. rewrite (probe_page_same_doc _ _ _ Hdoc). reflexivity.
    + apply Z.ltb_ge in Elt. exists idx, [].
      split; [reflexivity |]. split; [lia |]. split; [cbn; lia |].
      rewrite range_up_nil by lia. split; [reflexivity | constructor].
Qed.

End Driver.

(** ** Tilings *)

Lemma tiling_le (a b : Z) (ivs : list (Z * Z)) : tiling a ivs b -> a <= b.
Proof.
  revert a. induction ivs as [| iv ivs IH]; intros a; cbn [tiling].
  - lia.
  - intros (_ & Hlt & Hrest). apply IH in Hrest. lia.
Qed.

Lemma tiling_within (a b : Z) (ivs : list (Z * Z)) :
  tiling a ivs b -> Forall (fun iv => a <= iv.1 /\ iv.1 < iv.2 /\ iv.2 <= b) ivs.
Proof.
  revert a. induction ivs as [| iv ivs IH]; intros a; cbn [tiling]; [constructor |].
  intros (Hstart & Hlt & Hrest). constructor.
  - apply tiling_le in Hrest. lia.
  - eapply Forall_impl; [apply IH, Hrest |]. cbn. intros iv' H. lia.
Qed.

Lemma tiling_sorted (a b : Z) (ivs : list (Z * Z)) :
  tiling a ivs b -> StronglySorted Z.lt ivs.*1.
Proof.
  revert a. induction ivs as [| iv ivs IH]; intros a; cbn [tiling]; [constructor |].
  intros (Hstart & Hlt & Hrest). cbn. constructor; [eapply IH, Hrest |].
  apply tiling_within in Hrest. apply Forall_fmap.
  eapply Forall_impl; [exact Hrest |]. cbn. intros iv' H. lia.
Qed.

Lemma tiling_cover (a b : Z) (ivs : list (Z * Z)) :
  tiling a ivs b ->
  forall y, a <= y < b <-> exists iv, In iv ivs /\ iv.1 <= y < iv.2.
Proof.
  revert a. induction ivs as [| iv ivs IH]; intros a; cbn [tiling].
  - intros <- y. split; [lia | intros (iv & [] & _)].
  - intros (Hstart & Hlt & Hrest) y.
    pose proof (tiling_le _ _ _ Hrest) as Hle. split.
    + intros Hy. destruct (Z_lt_le_dec y iv.2) as [Hin | Hout].
      * exists iv. split; [left; reflexivity | lia].
      * destruct (proj1 (IH _ Hrest y)) as (iv' & Hiv' & Hy'); [lia |].
        exists iv'. split; [right; exact Hiv' | exact Hy'].
    + intros (iv' & [<- | Hiv'] & Hy); [lia |].
      assert (iv.2 <= y < b) by (apply (IH _ Hrest); exists iv'; split; assumption).
      lia.
Qed.

Lemma tiling_disjoint (a b : Z) (ivs : list (Z * Z)) :
  tiling a ivs b ->
  forall (i j : nat) iv iv', ivs !! i = Some iv -> ivs !! j = Some iv' -> (i < j)%nat ->
                             iv.2 <= iv'.1.
Proof.
  revert a. induction ivs as [| iv0 ivs IH]; intros a; cbn [tiling].
  - intros _ i j iv iv' H. discriminate.
  - intros (Hstart & Hlt & Hrest) i j iv iv' Hi Hj Hij.
    destruct j as [| j]; [lia |]. cbn in Hj.
    destruct i as [| i].
    + injection Hi as <-.
      apply tiling_within in Hrest. rewrite Forall_forall in Hrest.
      apply list_elem_of_lookup_2 in Hj. apply Hrest in Hj. lia.
    + cbn in Hi. apply (IH _ Hrest i j); [assumption | assumption | lia].
Qed.

Lemma tiling_last (a b : Z) (ivs : list (Z * Z)) (d : Z * Z) :
  tiling a ivs b -> ivs <> [] -> (List.last ivs d).2 = b.
Proof.
  revert a. induction ivs as [| iv ivs IH]; intros a; cbn [tiling]; [congruence |].
  intros (_ & _ & Hrest) _. destruct ivs as [| iv' ivs].
  - cbn in *. exact Hrest.
  - change (List.last (iv :: iv' :: ivs) d) with (List.last (iv' :: ivs) d).
    apply (IH _ Hrest). discriminate.
Qed.

Section DriverClaims.

Variable render : Page -> Image.t.
Variable scrollHeight : Page -> Z.

(** The world in which [process_html] reads the total height. *)
Local Abbreviation loaded self html_path w := (run_trace (load_events self html_path) w).

Lemma process_html_unfold (fuel : nat) (self : EPUBSmartSplitter) (html_path : string)
    (start_idx : Z) (w : World) :
  process_html render scrollHeight fuel self html_path start_idx w =
  process_html_loop render fuel self (scrollHeight (page (loaded self html_path w)))
    0 start_idx (loaded self html_path w).
Proof. reflexivity. Qed.

(** C3: for every document, when every height the locator returns at a
    scroll offset the loop reaches is at least 1, the [while] loop of
    [process_html] ends (within as many turns as the document is tall), and
    the slices [(current_top, current_top + height)] of the pages it wrote
    follow each other from 0 to the total height: their starts increase
    strictly, every offset below the total height lies in one of them, no
    two overlap, and the last one ends at the total height. *)
Theorem process_html_tiles (self : EPUBSmartSplitter) (html_path : string)
    (start_idx : Z) (w : World) (fuel : nat) :
  (forall top,
     break_point render self (scrollHeight (page (loaded self html_path w)))
       (loaded self html_path w) top ->
     top < scrollHeight (page (loaded self html_path w)) ->
     1 <= fst (find_clean_break render self top
                 (scrollHeight (page (loaded self html_path w)) - top)
                 (loaded self html_path w))) ->
  (Z.to_nat (scrollHeight (page (loaded self html_path w))) <= fuel)%nat ->
  exists idx' tr ivs,
    process_html render scrollHeight fuel self html_path start_idx w =
      Some (idx', run_trace tr (loaded self html_path w)) /\
    ivs = map interval (saved_pages (page (loaded self html_path w)) tr) /\
    tiling 0 ivs (Z.max 0 (scrollHeight (page (loaded self html_path w)))) /\
    StronglySorted Z.lt ivs.*1 /\
    (forall y, 0 <= y < scrollHeight (page (loaded self html_path w)) <->
               exists iv, In iv ivs /\ iv.1 <= y < iv.2) /\
    (forall (i j : nat) iv iv', ivs !! i = Some iv -> ivs !! j = Some iv' -> (i < j)%nat ->
                                iv.2 <= iv'.1) /\
    (ivs <> [] -> (List.last ivs (0, 0)).2 = scrollHeight (page (loaded self html_path w))).
Proof.
  intros Hpos Hfuel. rewrite process_html_unfold.
  set (w1 := loaded self html_path w) in *.
  set (total := scrollHeight (page w1)) in *.
  destruct (process_html_loop_run render self total w1 Hpos fuel 0 start_idx w1)
    as (idx' & tr & Hrun & _ & Htil & _ & _).
  { constructor. }
  { reflexivity. }
  { lia. }
  exists idx', tr, (map interval (saved_pages (page w1) tr)).
  split; [exact Hrun |]. split; [reflexivity |]. split; [exact Htil |].
  split; [eapply tiling_sorted, Htil |].
  split; [| split].
  - intros y. rewrite <- (tiling_cover _ _ _ Htil y). lia.
  - apply (tiling_disjoint _ _ _ Htil).
  - intros Hne. rewrite (tiling_last _ _ _ _ Htil Hne).
    destruct (saved_pages (page w1) tr) as [| s l] eqn:E; [contradiction |].
    cbn [map tiling] in Htil. destruct Htil as (_ & Hlt & Hrest).
    apply tiling_le in Hrest. cbn in *. lia.
Qed.

End DriverClaims.

(** ** File names *)

Lemma zero_pad_value (k : nat) (d : Decimal.uint) :
  Z.of_uint (zero_pad k d) = Z.of_uint d.
Proof. induction k as [| k IH]; [reflexivity | exact IH]. Qed.

Lemma string_of_uint_inj (d d' : Decimal.uint) :
  NilEmpty.string_of_uint d = NilEmpty.string_of_uint d' -> d = d'.
Proof.
  intros H. apply (f_equal NilEmpty.uint_of_string) in H.
  rewrite !NilEmpty.usu in H. congruence.
Qed.

(** On indices that are not negative [f"{idx:04d}"] loses nothing. *)
Lemma format_04d_inj (i j : Z) : 0 <= i -> 0 <= j -> format_04d i = format_04d j -> i = j.
Proof.
  intros Hi Hj H.
  rewrite <- (DecimalZ.of_to i), <- (DecimalZ.of_to j).
  unfold format_04d in H.
  destruct (Z.to_int i) as [di | di] eqn:Ei; [| destruct i; cbn in Ei; (discriminate || lia)].
  destruct (Z.to_int j) as [dj | dj] eqn:Ej; [| destruct j; cbn in Ej; (discriminate || lia)].
  apply string_of_uint_inj in H. apply (f_equal Z.of_uint) in H.
  rewrite !zero_pad_value in H. exact H.
Qed.

Lemma string_length_app (s t : string) :
  String.length (s +:+ t) = (String.length s + String.length t)%nat.
Proof. induction s as [| c s IH]; simpl; [reflexivity | rewrite IH; reflexivity]. Qed.

Lemma string_app_inv_tail (s1 s2 t : string) : s1 +:+ t = s2 +:+ t -> s1 = s2.
Proof.
  revert s2. induction s1 as [| c s1 IH]; intros [| c' s2] H.
  - reflexivity.
  - apply (f_equal String.length) in H. rewrite !string_length_app in H. simpl in H. lia.
  - apply (f_equal String.length) in H. rewrite !string_length_app in H. simpl in H. lia.
  - simpl in H. injection H as -> H. f_equal. apply IH, H.
Qed.

Lemma page_file_name_inj (i j : Z) :
  0 <= i -> 0 <= j -> page_file_name i = page_file_name j -> i = j.
Proof.
  intros Hi Hj H. apply format_04d_inj; [assumption | assumption |].
  eapply string_app_inv_tail, H.
Qed.

Lemma string_of_uint_length (d : Decimal.uint) :
  String.length (NilEmpty.string_of_uint d) = Decimal.nb_digits d.
Proof. induction d; simpl; congruence. Qed.

Lemma zero_pad_digits (k : nat) (d : Decimal.uint) :
  Decimal.nb_digits (zero_pad k d) = (k + Decimal.nb_digits d)%nat.
Proof. induction k as [| k IH]; simpl; congruence. Qed.

(** Digits read after an accumulator shift it by their number. *)
Lemma of_uint_acc_lower (d : Decimal.uint) :
  forall acc, Z.pos acc * 10 ^ Z.of_nat (Decimal.nb_digits d) <= Z.pos (Pos.of_uint_acc d acc).
Proof.
  induction d as [| d IH | d IH | d IH | d IH | d IH | d IH | d IH | d IH | d IH | d IH];
    intros acc; cbn [Pos.of_uint_acc Decimal.nb_digits];
    [ cbn; lia | .. ];
    rewrite Nat2Z.inj_succ, Z.pow_succ_r by lia;
    match goal with
    | |- _ <= Z.pos (Pos.of_uint_acc _ ?acc') =>
        specialize (IH acc');
        assert (10 * Z.pos acc <= Z.pos acc') by lia
    end;
    assert (0 < 10 ^ Z.of_nat (Decimal.nb_digits d)) by (apply Z.pow_pos_nonneg; lia);
    nia.
Qed.

(** A positive number written with [n] digits is at least [10 ^ (n - 1)]. *)
Lemma to_uint_lower (p : positive) :
  10 ^ (Z.of_nat (Decimal.nb_digits (Pos.to_uint p)) - 1) <= Z.pos p.
Proof.
  pose proof (DecimalPos.Unsigned.of_to p) as Hof.
  pose proof (DecimalPos.Unsigned.to_of (Pos.to_uint p)) as Hnorm.
  rewrite Hof in Hnorm. cbn [N.to_uint] in Hnorm.
  destruct (Pos.to_uint p) as [| d | d | d | d | d | d | d | d | d | d];
    cbn [Pos.of_uint] in Hof; try discriminate Hof;
    try (injection Hof as <-;
         cbn [Decimal.nb_digits]; rewrite Nat2Z.inj_succ;
         replace (Z.succ (Z.of_nat (Decimal.nb_digits d)) - 1)
           with (Z.of_nat (Decimal.nb_digits d)) by lia;
         match goal with
         | |- _ <= Z.pos (Pos.of_uint_acc _ ?acc) =>
             pose proof (of_uint_acc_lower d acc) as Hlow
         end;
         assert (0 < 10 ^ Z.of_nat (Decimal.nb_digits d)) by (apply Z.pow_pos_nonneg; lia);
         nia).
  destruct d as [| d | d | d | d | d | d | d | d | d | d]; try discriminate Hof;
    exfalso;
    match goal with
    | H : Decimal.D0 ?l = Decimal.unorm (Decimal.D0 ?l) |- _ =>
        change (Decimal.unorm (Decimal.D0 l)) with (Decimal.unorm l) in H;
        assert (l <> Decimal.Nil) as Hne by discriminate;
        pose proof (DecimalFacts.nb_digits_unorm l Hne) as Hle;
        rewrite <- H in Hle; cbn [Decimal.nb_digits] in Hle; lia
    end.
Qed.

(** An index below ten thousand is written with exactly four digits. *)
Lemma format_04d_length (i : Z) : 0 <= i < 10000 -> String.length (format_04d i) = 4%nat.
Proof.
  intros Hi. destruct i as [| p | p]; [reflexivity | | lia].
  unfold format_04d. cbn [Z.to_int].
  rewrite string_of_uint_length, zero_pad_digits.
  pose proof (to_uint_lower p) as Hlow.
  assert (Decimal.nb_digits (Pos.to_uint p) <= 4)%nat as Hdigits.
  { apply Nat.nlt_ge. intros Hmany.
    assert (10 ^ 4 <= 10 ^ (Z.of_nat (Decimal.nb_digits (Pos.to_uint p)) - 1))
      by (apply Z.pow_le_mono_r; lia).
    lia. }
  lia.
Qed.

Lemma range_up_app (a b c : Z) : a <= b <= c -> range_up a b ++ range_up b c = range_up a c.
Proof.
  intros H. remember (Z.to_nat (b - a)) as n eqn:En.
  revert a H En. induction n as [| n IH]; intros a H En.
  - assert (a = b) as -> by lia. rewrite range_up_nil by lia. reflexivity.
  - rewrite (range_up_cons a b), (range_up_cons a c) by lia. cbn [app]. f_equal.
    apply IH; lia.
Qed.

(** ** Numbered runs *)

Lemma run_trace_files (tr : list Event) (w : World) :
  files (run_trace tr w) = save_all (saved_pages (page w) tr) (files w).
Proof.
  unfold run_trace, save_all. revert w.
  induction tr as [| e tr IH]; intros w; [reflexivity |].
  cbn [foldl]. rewrite IH. destruct e; reflexivity.
Qed.

Lemma saved_pages_elem (p : Page) (tr : list Event) (name : string) (im : Image.t) :
  In (EvSave name im) tr ->
  exists s, In s (saved_pages p tr) /\ sv_name s = name /\ sv_image s = im.
Proof.
  revert p. induction tr as [| e tr IH]; intros p; [intros [] |].
  intros [-> | Hin].
  - eexists. split; [left; reflexivity |]. split; reflexivity.
  - destruct (IH (page_after e p) Hin) as (s & Hs & Hname & Him).
    exists s. split; [| split; assumption].
    destruct e; cbn; try exact Hs. right. exact Hs.
Qed.

Section Numbered.

Variable render : Page -> Image.t.
Variable scrollHeight : Page -> Z.

Lemma numbered_silent (self : EPUBSmartSplitter) (p : Page) (tr : list Event) (idx : Z) :
  saved_pages p tr = [] -> numbered render self p tr idx idx.
Proof.
  intros H. unfold numbered. rewrite H, range_up_nil by lia.
  split; [lia |]. split; [reflexivity | constructor].
Qed.

Lemma numbered_app (self : EPUBSmartSplitter) (p : Page) (tr1 tr2 : list Event) (a b c : Z) :
  numbered render self p tr1 a b ->
  numbered render self (page_after_trace tr1 p) tr2 b c ->
  numbered render self p (tr1 ++ tr2) a c.
Proof.
  intros (Hab & Hn1 & Hi1) (Hbc & Hn2 & Hi2). unfold numbered.
  rewrite saved_pages_app, map_app, Hn1, Hn2, <- map_app, range_up_app by lia.
  split; [lia |]. split; [reflexivity |]. apply Forall_app. split; assumption.
Qed.

(** Whenever the [while] loop ends, the pages it wrote are numbered from
    the index it started with to the index it returns. *)
Lemma process_html_loop_numbered (self : EPUBSmartSplitter) (total : Z) (fuel : nat) :
  forall (top idx : Z) (w : World) (idx' : Z) (w' : World),
    process_html_loop render fuel self total top idx w = Some (idx', w') ->
    exists tr, w' = run_trace tr w /\ numbered render self (page w) tr idx idx'.
Proof.
  induction fuel as [| fuel IH]; intros top idx w idx' w'; cbn [process_html_loop].
  - destruct (top <? total); [discriminate |]. intros [= <- <-].
    exists []. split; [reflexivity | apply numbered_silent; reflexivity].
  - destruct (top <? total).
    + destruct (process_html_page_spec render self total top idx w) as [hs Hpage].
      cbv zeta in Hpage. rewrite Hpage. clear Hpage. intros Hrun.
      apply IH in Hrun as (tr & -> & Hnum).
      eexists. split; [symmetry; apply run_trace_app |].
      eapply numbered_app; [| rewrite <- run_trace_page; exact Hnum].
      unfold numbered. rewrite saved_pages_turn, (range_up_cons idx (idx + 1)) by lia.
      rewrite range_up_nil by lia.
      split; [lia |]. split; [reflexivity |].
      constructor; [| constructor]. eexists. reflexivity.
    + intros [= <- <-].
      exists []. split; [reflexivity | apply numbered_silent; reflexivity].
Qed.

Lemma process_html_numbered (self : EPUBSmartSplitter) (fuel : nat) (html_path : string)
    (idx : Z) (w : World) (idx' : Z) (w' : World) :
  process_html render scrollHeight fuel self html_path idx w = Some (idx', w') ->
  exists tr, w' = run_trace tr w /\ numbered render self (page w) tr idx idx'.
Proof.
  change (process_html render scrollHeight fuel self html_path idx w)
    with (process_html_loop render fuel self
            (scrollHeight (page (run_trace (load_events self html_path) w)))
            0 idx (run_trace (load_events self html_path) w)).
  intros Hrun. apply process_html_loop_numbered in Hrun as (tr & -> & Hnum).
  exists (load_events self html_path ++ tr).
  split; [symmetry; apply run_trace_app |].
  eapply numbered_app; [apply numbered_silent; reflexivity |].
  rewrite <- run_trace_page. exact Hnum.
Qed.

(** The index one document ends with is the index the next one starts
    with: over the whole spine the pages are numbered without a break. *)
Lemma process_loop_numbered (self : EPUBSmartSplitter) (fuel : nat) (html_files : list string) :
  forall (idx : Z) (w : World) (idx' : Z) (w' : World),
    process_loop render scrollHeight fuel self html_files idx w = Some (idx', w') ->
    exists tr, w' = run_trace tr w /\ numbered render self (page w) tr idx idx'.
Proof.
  induction html_files as [| html_file rest IH]; intros idx w idx' w'; cbn [process_loop].
  - intros [= <- <-].
    exists []. split; [reflexivity | apply numbered_silent; reflexivity].
  - change (print ("Processing " +:+ path_name html_file) w)
      with (tt, run_trace [EvPrint ("Processing " +:+ path_name html_file)] w).
    cbv iota beta.
    destruct (process_html _ _ _ _ _ _ _) as [[idx1 w1] |] eqn:Edoc; [| discriminate].
    intros Hrest.
    apply process_html_numbered in Edoc as (tr1 & -> & Hnum1).
    apply IH in Hrest as (tr2 & -> & Hnum2).
    eexists. split.
    + rewrite <- !run_trace_app. reflexivity.
    + eapply numbered_app; [apply numbered_silent; reflexivity |].
      rewrite <- run_trace_page.
      eapply numbered_app; [exact Hnum1 |].
      rewrite <- run_trace_page. exact Hnum2.
Qed.

(** A completed run, as a trace from the fresh world. *)
Lemma process_completed (extract_spine_htmls : EPUBSmartSplitter -> string + list string)
    (fuel : nat) (self : EPUBSmartSplitter) (entries : gmap string File)
    (n : Z) (w : World) :
  process render scrollHeight extract_spine_htmls fuel self entries = (Completed n, w) ->
  w = run_trace (trace w) {| page := new_page self; files := entries; trace := [] |} /\
  numbered render self (new_page self) (trace w) 0 n.
Proof.
  unfold process. destruct (extract_spine_htmls self) as [exn | html_files]; [discriminate |].
  set (w0 := {| page := new_page self; files := entries; trace := [] |}).
  set (line := "Found " +:+ _).
  change (print line w0) with (tt, run_trace [EvPrint line] w0). cbv iota beta.
  destruct (process_loop _ _ _ _ _ _ _) as [[idx w2] |] eqn:Eloop; [| discriminate].
  set (line' := "Done. Created " +:+ _).
  change (print line' w2) with (tt, run_trace [EvPrint line'] w2). cbv iota beta.
  intros H. injection H as <- Hw.
  change (run_trace [EvPrint line'] w2 = w) in Hw. subst w.
  apply process_loop_numbered in Eloop as (tr & -> & Hnum).
  assert (run_trace [EvPrint line'] (run_trace tr (run_trace [EvPrint line] w0)) =
          run_trace ([EvPrint line] ++ tr ++ [EvPrint line']) w0) as ->
    by (rewrite !run_trace_app; reflexivity).
  rewrite run_trace_trace. change (trace w0) with (@nil Event).
  rewrite app_nil_l. split; [reflexivity |].
  eapply numbered_app; [apply numbered_silent; reflexivity |].
  eapply numbered_app; [exact Hnum | apply numbered_silent; reflexivity].
Qed.

End Numbered.

(** ** Saved files and pixels *)

Lemma save_all_other (pages : list Saved) (fs : gmap string File) (name : string) :
  name ∉ map sv_name pages -> save_all pages fs !! name = fs !! name.
Proof.
  unfold save_all. revert fs. induction pages as [| s pages IH]; intros fs Hnot; [reflexivity |].
  cbn [map] in Hnot. apply not_elem_of_cons in Hnot as [Hne Hnot].
  cbn [foldl]. rewrite IH by exact Hnot.
  apply lookup_insert_ne. congruence.
Qed.

Lemma save_all_lookup (pages : list Saved) (fs : gmap string File) (i : nat) (s : Saved) :
  NoDup (map sv_name pages) -> pages !! i = Some s ->
  save_all pages fs !! sv_name s = Some (Png (sv_image s)).
Proof.
  revert fs i. induction pages as [| s0 pages IH]; intros fs i Hnd Hi; [discriminate |].
  inversion Hnd as [| ? ? Hnotin Hnd']; subst.
  destruct i as [| i].
  - injection Hi as ->. change (save_all (s :: pages) fs)
      with (save_all pages (<[sv_name s := Png (sv_image s)]> fs)).
    rewrite save_all_other by exact Hnotin. apply lookup_insert_eq.
  - change (save_all (s0 :: pages) fs)
      with (save_all pages (<[sv_name s0 := Png (sv_image s0)]> fs)).
    apply (IH _ i Hnd' Hi).
Qed.

Lemma range_up_lookup (a b : Z) (i : nat) :
  (i < Z.to_nat (b - a))%nat -> range_up a b !! i = Some (a + Z.of_nat i).
Proof.
  intros H. unfold range_up.
  change (map ?f ?l) with (f <$> l). rewrite list_lookup_fmap, lookup_seq_lt by exact H.
  reflexivity.
Qed.

Lemma range_up_NoDup (a b : Z) : NoDup (range_up a b).
Proof.
  unfold range_up. apply NoDup_fmap_2_strong; [| apply NoDup_seq].
  intros i j _ _ H. lia.
Qed.

Lemma page_file_names_NoDup (n : Z) : NoDup (map page_file_name (range_up 0 n)).
Proof.
  apply NoDup_fmap_2_strong; [| apply range_up_NoDup].
  intros i j Hi Hj. apply list_elem_of_In, range_up_elem in Hi, Hj.
  apply page_file_name_inj; lia.
Qed.

(** The table [point] builds holds [f p] at every byte [p]. *)
Lemma nth_lut (f : Z -> Z) (p : Z) :
  0 <= p <= 255 -> nth (Z.to_nat p) (Image.lut f) 0 = f p.
Proof.
  intros Hp. unfold Image.lut.
  assert (range_up 0 256 !! Z.to_nat p = Some p) as Hlook.
  { rewrite range_up_lookup by lia. f_equal. lia. }
  change (map f ?l) with (f <$> l).
  apply nth_lookup_Some with (d := 0). rewrite list_lookup_fmap, Hlook. reflexivity.
Qed.

Lemma point_lookup (f : Z -> Z) (im : Image.t) (i : nat) (p : Z) :
  Image.getdata im !! i = Some p -> 0 <= p <= 255 ->
  Image.getdata (Image.point f im) !! i = Some (f p).
Proof.
  intros Hi Hp. unfold Image.point. cbn [Image.getdata].
  change (map ?g ?l) with (g <$> l). rewrite list_lookup_fmap, Hi. cbn.
  rewrite nth_lut by exact Hp. reflexivity.
Qed.

Section RunClaims.

Variable render : Page -> Image.t.
Variable scrollHeight : Page -> Z.
Variable extract_spine_htmls : EPUBSmartSplitter -> string + list string.

(** C6: in a completed run the returned index is the number of pages
    written; the page written as the [i]-th of the whole run, across all
    documents and counting from 0, is saved under [f"{i:04d}.png"], four
    digits for an index below ten thousand, and the output directory holds
    that page under that name at the end.  So the indices are 0, 1, ...,
    [n - 1] with none missing and none used twice. *)
Theorem process_page_indices (fuel : nat) (self : EPUBSmartSplitter)
    (entries : gmap string File) (n : Z) (w : World) :
  process render scrollHeight extract_spine_htmls fuel self entries = (Completed n, w) ->
  exists pages,
    pages = saved_pages (new_page self) (trace w) /\
    n = Z.of_nat (length pages) /\
    forall (i : nat) (s : Saved),
      pages !! i = Some s ->
      sv_name s = format_04d (Z.of_nat i) +:+ ".png" /\
      (Z.of_nat i < 10000 -> String.length (format_04d (Z.of_nat i)) = 4%nat) /\
      files w !! sv_name s = Some (Png (sv_image s)).
Proof.
  intros Hrun. apply process_completed in Hrun as (Hw & Hn & Hnames & _).
  exists (saved_pages (new_page self) (trace w)). split; [reflexivity |].
  assert (length (saved_pages (new_page self) (trace w)) = Z.to_nat n) as Hlen.
  { rewrite <- (length_map sv_name), Hnames, length_map, range_up_length. f_equal. lia. }
  split; [lia |]. intros i s Hi.
  assert (sv_name s = page_file_name (Z.of_nat i)) as Hname.
  { assert (map sv_name (saved_pages (new_page self) (trace w)) !! i = Some (sv_name s)) as H
      by (change (map ?f ?l) with (f <$> l); rewrite list_lookup_fmap, Hi; reflexivity).
    rewrite Hnames in H. change (map ?f ?l) with (f <$> l) in H.
    rewrite list_lookup_fmap, range_up_lookup in H.
    - rewrite Z.add_0_l in H. injection H as H. symmetry. exact H.
    - apply lookup_lt_Some in Hi. lia. }
  split; [exact Hname |]. split; [intros Hlt; apply format_04d_length; lia |].
  rewrite Hw, run_trace_files. cbn [page files].
  apply (save_all_lookup _ _ i); [| exact Hi].
  rewrite Hnames. apply page_file_names_NoDup.
Qed.

(** C7: every page image a run writes is, pixel for pixel, a capture of
    the page with each gray value above the threshold turned to white
    (255) and every other value to black (0). *)
Theorem process_pages_binarized (fuel : nat) (self : EPUBSmartSplitter)
    (entries : gmap string File) (res : Outcome) (w : World) :
  (forall p, Forall (fun pixel => 0 <= pixel <= 255) (Image.getdata (render p))) ->
  process render scrollHeight extract_spine_htmls fuel self entries = (res, w) ->
  forall name im,
    In (EvSave name im) (trace w) ->
    exists p,
      Image.width im = Image.width (render p) /\
      Image.height im = Image.height (render p) /\
      length (Image.getdata im) = length (Image.getdata (render p)) /\
      forall (i : nat) (pixel : Z),
        Image.getdata (render p) !! i = Some pixel ->
        Image.getdata im !! i = Some (if pixel >? threshold self then 255 else 0).
Proof.
  intros Hbytes Hrun name im Hin.
  assert (exists n, res = Completed n) as [n ->].
  { unfold process in Hrun.
    destruct (extract_spine_htmls self) as [exn | html_files].
    - injection Hrun as <- <-. destruct Hin.
    - unfold print, command in Hrun. cbv beta iota in Hrun.
      destruct (process_loop _ _ _ _ _ _ _) as [[idx w2] |].
      + injection Hrun as <- _. eexists. reflexivity.
      + injection Hrun as <- <-. cbn in Hin. destruct Hin as [H | []]. discriminate. }
  apply process_completed in Hrun as (_ & _ & _ & Himgs).
  destruct (saved_pages_elem (new_page self) _ _ _ Hin) as (s & Hs & _ & <-).
  rewrite Forall_forall in Himgs.
  destruct (Himgs s (proj2 (list_elem_of_In _ _) Hs)) as [p Hp].
  exists p. rewrite Hp. split; [reflexivity |]. split; [reflexivity |].
  split; [apply length_map |].
  intros i pixel Hi. apply (point_lookup (binarize self)); [exact Hi |].
  specialize (Hbytes p). rewrite Forall_forall in Hbytes.
  apply Hbytes. eapply list_elem_of_lookup_2, Hi.
Qed.

End RunClaims.

(** ** The output directory check of [main] *)

Lemma any_path_iterdir (entries : gmap string File) :
  any_path (iterdir entries) = true <-> entries <> ∅.
Proof.
  unfold any_path, iterdir. rewrite <- (map_to_list_empty_iff entries).
  destruct (map_to_list entries) as [| e l]; cbn; split; congruence.
Qed.

Section MainClaims.

Variable render : Page -> Image.t.
Variable scrollHeight : Page -> Z.
Variable extract_spine_htmls : EPUBSmartSplitter -> string + list string.

Lemma process_not_parser_error (fuel : nat) (self : EPUBSmartSplitter)
    (entries : gmap string File) (msg : string) :
  (process render scrollHeight extract_spine_htmls fuel self entries).1 <> ParserError msg.
Proof.
  unfold process. destruct (extract_spine_htmls self) as [exn | html_files]; [discriminate |].
  unfold print, command. cbv beta iota.
  destruct (process_loop _ _ _ _ _ _ _) as [[idx w2] |]; discriminate.
Qed.

(** C9: when the output directory exists and has at least one entry,
    [main] ends with the parser error before the splitter is built: no
    command is issued and the directory is left as it was, so no page file
    is written.  When the directory does not exist or is empty, the check
    passes: the run is that of [process] on an empty directory, and it does
    not end with the parser error. *)
Theorem main_output_directory_check (fuel : nat) (args : EPUBSmartSplitter) :
  (forall entries, entries <> ∅ ->
     main render scrollHeight extract_spine_htmls fuel args (Directory entries) =
     (ParserError "Output directory must be empty", Directory entries, [])) /\
  (forall outdir, outdir = Absent \/ outdir = Directory ∅ ->
     main render scrollHeight extract_spine_htmls fuel args outdir =
       ((process render scrollHeight extract_spine_htmls fuel args ∅).1,
        Directory (files (process render scrollHeight extract_spine_htmls fuel args ∅).2),
        trace (process render scrollHeight extract_spine_htmls fuel args ∅).2) /\
     forall msg,
       (main render scrollHeight extract_spine_htmls fuel args outdir).1.1 <> ParserError msg).
Proof.
  split.
  - intros entries Hne. unfold main.
    rewrite (proj2 (any_path_iterdir entries) Hne). reflexivity.
  - intros outdir Hdir.
    assert (main render scrollHeight extract_spine_htmls fuel args outdir =
            ((process render scrollHeight extract_spine_htmls fuel args ∅).1,
             Directory (files (process render scrollHeight extract_spine_htmls fuel args ∅).2),
             trace (process render scrollHeight extract_spine_htmls fuel args ∅).2)) as Hmain.
    { destruct Hdir as [-> | ->]; unfold main.
      - destruct (process _ _ _ _ _ _) as [res w]. reflexivity.
      - assert (any_path (iterdir (∅ : gmap string File)) = false) as ->.
        { apply not_true_is_false. rewrite any_path_iterdir. congruence. }
        destruct (process _ _ _ _ _ _) as [res w]. reflexivity. }
    split; [exact Hmain |].
    intros msg. rewrite Hmain. cbn [fst]. apply process_not_parser_error.
Qed.

End MainClaims.

(** ** The threshold boundary *)

Lemma bottom_row_data (im : Image.t) :
  Image.getdata (bottom_row im) =
  map (fun x => Image.getpixel im x (Image.height im - 1)) (range_up 0 (Image.width im)).
Proof.
  unfold bottom_row, Image.crop. cbn [Image.getdata].
  rewrite (range_up_cons (Image.height im - 1)) by lia.
  rewrite (range_up_nil (Image.height im - 1 + 1)) by lia.
  cbn [flat_map]. apply app_nil_r.
Qed.

Lemma getpixel_point (f : Z -> Z) (im : Image.t) (x y : Z) :
  Image.wf im -> 0 <= x < Image.width im -> 0 <= y < Image.height im ->
  Image.getpixel (Image.point f im) x y = f (Image.getpixel im x y).
Proof.
  intros (Hw & Hh & Hlen & Hbytes) Hx Hy. unfold Image.getpixel.
  cbn [Image.width Image.height Image.getdata Image.point].
  replace ((0 <=? x) && (x <? Image.width im) && (0 <=? y) && (y <? Image.height im))
    with true by (symmetry; repeat (apply andb_true_intro; split); lia).
  assert (0 <= y * Image.width im + x < Image.width im * Image.height im) as Hidx by nia.
  assert (Z.to_nat (y * Image.width im + x) < length (Image.getdata im))%nat as Hk
    by (rewrite Hlen; lia).
  destruct (lookup_lt_is_Some_2 _ _ Hk) as [p Hp].
  rewrite (nth_lookup_Some _ _ 0 _ Hp).
  apply nth_lookup_Some. apply point_lookup; [exact Hp |].
  rewrite Forall_forall in Hbytes. eapply Hbytes, list_elem_of_lookup_2, Hp.
Qed.

(** C10: a bottom-row pixel whose value is exactly the threshold does not
    make [is_text_cut_off] report a cut (it looks for pixels below the
    threshold), so a capture whose bottom row holds no darker pixel is
    accepted as clean; yet the binarizer, which makes white only what is
    above the threshold, writes that pixel black. *)
Theorem threshold_pixel_clean_yet_black (self : EPUBSmartSplitter) (im : Image.t) (x : Z) :
  Image.wf im ->
  0 < Image.height im ->
  0 <= x < Image.width im ->
  Image.getpixel im x (Image.height im - 1) = threshold self ->
  (forall x', 0 <= x' < Image.width im ->
              threshold self <= Image.getpixel im x' (Image.height im - 1)) ->
  is_text_cut_off self im = false /\
  Image.getpixel (Image.point (binarize self) im) x (Image.height im - 1) = 0.
Proof.
  intros Hwf Hh Hx Hpix Hrow. split.
  - apply is_text_cut_off_false. rewrite bottom_row_data, Forall_forall.
    intros pixel Hin. apply list_elem_of_In, in_map_iff in Hin as (x' & <- & Hx').
    apply range_up_elem in Hx'. specialize (Hrow x'). lia.
  - rewrite getpixel_point by (assumption || lia).
    rewrite Hpix. unfold binarize.
    replace (threshold self >? threshold self) with false by lia. reflexivity.
Qed.

(** * The properties on the test documents *)

(** On a page that is ink all over every candidate of [demo] is cut off. *)
Lemma all_ink_cut_off (h : Z) :
  int_mul_0_3 (base_height demo) <= h <= Z.min 25 (base_height demo) ->
  ~ Forall (fun pixel => ~ pixel < threshold demo)
      (Image.getdata (bottom_row (flat_render 0 (probe_page demo (page (blank_world demo)) 0 h)))).
Proof.
  intros Hh Hclean. apply is_text_cut_off_false in Hclean.
  change (3 <= h <= 10) in Hh.
  assert (2 < h <= 10) as Hh' by lia.
  pose proof (forallb_range_down
                (fun h => is_text_cut_off demo
                            (flat_render 0 (probe_page demo (page (blank_world demo)) 0 h)))
                10 2 ltac:(vm_compute; reflexivity) h Hh') as Hcut.
  cbv beta in Hcut. congruence.
Qed.

Lemma find_clean_break_none_clean_witness :
  fst (find_clean_break (flat_render 0) demo 0 25 (blank_world demo)) =
  Z.min 25 (base_height demo).
Proof.
  apply (find_clean_break_none_clean (flat_render 0) demo 0 25 (blank_world demo)).
  - vm_compute. discriminate.
  - exact all_ink_cut_off.
Defined.

(** C1 as stated fails: with a base height of 10 the minimum height is 3,
    and on a page that is ink all over no candidate from 10 down to 3 is
    clean; [find_clean_break] returns 10, not 3. *)
Lemma find_clean_break_none_clean_not_floor :
  ~ (int_mul_0_3 (base_height demo) <= Z.min 25 (base_height demo) ->
     (forall h, int_mul_0_3 (base_height demo) <= h <= Z.min 25 (base_height demo) ->
        ~ Forall (fun pixel => ~ pixel < threshold demo)
            (Image.getdata
               (bottom_row (flat_render 0 (probe_page demo (page (blank_world demo)) 0 h))))) ->
     fst (find_clean_break (flat_render 0) demo 0 25 (blank_world demo)) =
     int_mul_0_3 (base_height demo)).
Proof.
  intros Hclaim.
  assert (fst (find_clean_break (flat_render 0) demo 0 25 (blank_world demo)) =
          int_mul_0_3 (base_height demo)) as Habs.
  { apply Hclaim; [vm_compute; discriminate | exact all_ink_cut_off]. }
  vm_compute in Habs. discriminate.
Qed.


Lemma process_html_tiles_witness :
  exists idx' tr ivs,
    process_html (strip_render lined) demo_height 25 demo "/book/OEBPS/ch1.xhtml" 0
      (blank_world demo) =
      Some (idx', run_trace tr
                    (run_trace (load_events demo "/book/OEBPS/ch1.xhtml") (blank_world demo))) /\
    ivs = map interval
            (saved_pages
               (page (run_trace (load_events demo "/book/OEBPS/ch1.xhtml") (blank_world demo)))
               tr) /\
    tiling 0 ivs (Z.max 0 25) /\
    StronglySorted Z.lt ivs.*1 /\
    (forall y, 0 <= y < 25 <-> exists iv, In iv ivs /\ iv.1 <= y < iv.2) /\
    (forall (i j : nat) iv iv', ivs !! i = Some iv -> ivs !! j = Some iv' -> (i < j)%nat ->
                                iv.2 <= iv'.1) /\
    (ivs <> [] -> (List.last ivs (0, 0)).2 = 25).
Proof.
  apply (process_html_tiles (strip_render lined) demo_height demo "/book/OEBPS/ch1.xhtml" 0
           (blank_world demo) 25).
  - intros top _ Htop. apply find_clean_break_pos.
    + vm_compute. discriminate.
    + unfold demo_height in *. lia.
  - vm_compute. lia.
Defined.

Lemma find_clean_break_bounds_witness :
  int_mul_0_3_binary64 (base_height demo) = Some (3 * base_height demo / 10) /\
  (3 * base_height demo / 10 <= 25 ->
   3 * base_height demo / 10
     <= fst (find_clean_break (strip_render lined) demo 0 25 (blank_world demo))
     <= Z.min (base_height demo) 25) /\
  (25 < 3 * base_height demo / 10 ->
   fst (find_clean_break (strip_render lined) demo 0 25 (blank_world demo)) = 25).
Proof.
  apply (find_clean_break_bounds (strip_render lined) demo 0 25 (blank_world demo)).
  vm_compute. split; discriminate.
Defined.

(** Scenario B: 100 rows remain, the floor is 282. *)
Lemma find_clean_break_below_floor_witness :
  find_clean_break (strip_render lined) defaults 1900 100 (blank_world defaults) =
    (Z.min 100 (base_height defaults), blank_world defaults) /\
  captures_during (find_clean_break (strip_render lined) defaults 1900 100)
    (blank_world defaults) = O /\
  (0 <= base_height defaults -> Z.min 100 (base_height defaults) = 100).
Proof.
  apply (find_clean_break_below_floor (strip_render lined) defaults 1900 100
           (blank_world defaults)).
  vm_compute. reflexivity.
Defined.

(** C8 as stated fails: with 100 rows remaining and a base height of 940
    the bound [start - min_height + 1] is [100 - 282 + 1 = -181], and the
    number of captures, 0, is not at most that. *)
Lemma find_clean_break_capture_bound_negative :
  ~ (Z.of_nat (captures_during (find_clean_break (strip_render lined) defaults 1900 100)
                 (blank_world defaults))
     <= Z.min 100 (base_height defaults) - int_mul_0_3 (base_height defaults) + 1).
Proof. vm_compute. intros H. apply H. reflexivity. Qed.

(** The test renderings deliver bytes. *)
Lemma strip_render_bytes (ink : Z -> bool) (p : Page) :
  Forall (fun pixel => 0 <= pixel <= 255) (Image.getdata (strip_render ink p)).
Proof.
  unfold strip_render, strip_image. cbn [Image.getdata].
  rewrite Forall_forall. intros pixel Hin.
  apply list_elem_of_In, in_flat_map in Hin as (y & _ & Hin).
  apply repeat_spec in Hin. destruct (ink _); lia.
Qed.

(** The run of [demo] over the two chapters of the test book. *)
Lemma process_page_indices_witness :
  exists pages,
    pages = saved_pages (new_page demo)
              (trace (process (strip_render lined) demo_height demo_spine 30 demo ∅).2) /\
    8 = Z.of_nat (length pages) /\
    forall (i : nat) (s : Saved),
      pages !! i = Some s ->
      sv_name s = format_04d (Z.of_nat i) +:+ ".png" /\
      (Z.of_nat i < 10000 -> String.length (format_04d (Z.of_nat i)) = 4%nat) /\
      files (process (strip_render lined) demo_height demo_spine 30 demo ∅).2 !! sv_name s =
        Some (Png (sv_image s)).
Proof.
  apply (process_page_indices (strip_render lined) demo_height demo_spine 30 demo ∅ 8
           (process (strip_render lined) demo_height demo_spine 30 demo ∅).2).
  vm_compute. reflexivity.
Defined.

(** The last page of the first chapter: one row of ink. *)
Lemma process_pages_binarized_witness :
  exists p,
    Image.width (Image.mk 2 1 [0; 0]) = Image.width (strip_render lined p) /\
    Image.height (Image.mk 2 1 [0; 0]) = Image.height (strip_render lined p) /\
    length (Image.getdata (Image.mk 2 1 [0; 0])) = length (Image.getdata (strip_render lined p)) /\
    forall (i : nat) (pixel : Z),
      Image.getdata (strip_render lined p) !! i = Some pixel ->
      Image.getdata (Image.mk 2 1 [0; 0]) !! i =
        Some (if pixel >? threshold demo then 255 else 0).
Proof.
  assert (process (strip_render lined) demo_height demo_spine 30 demo ∅ =
          ((process (strip_render lined) demo_height demo_spine 30 demo ∅).1,
           (process (strip_render lined) demo_height demo_spine 30 demo ∅).2)) as Hrun
    by (vm_compute; reflexivity).
  assert (In (EvSave "0003.png" (Image.mk 2 1 [0; 0]))
            (trace (process (strip_render lined) demo_height demo_spine 30 demo ∅).2)) as Hin
    by (apply (nth_error_In _ 59); vm_compute; reflexivity).
  exact (process_pages_binarized (strip_render lined) demo_height demo_spine 30 demo ∅ _ _
           (strip_render_bytes lined) Hrun "0003.png" (Image.mk 2 1 [0; 0]) Hin).
Defined.

(** Scenario C: the output directory holds one file. *)
Lemma main_output_directory_check_witness :
  main (strip_render lined) demo_height demo_spine 30 demo
    (Directory {["cover.jpg" := Foreign]}) =
  (ParserError "Output directory must be empty", Directory {["cover.jpg" := Foreign]}, []).
Proof.
  apply (proj1 (main_output_directory_check (strip_render lined) demo_height demo_spine 30 demo)).
  apply insert_non_empty.
Defined.

Lemma threshold_pixel_clean_yet_black_witness :
  is_text_cut_off demo threshold_gray = false /\
  Image.getpixel (Image.point (binarize demo) threshold_gray) 0
    (Image.height threshold_gray - 1) = 0.
Proof.
  apply (threshold_pixel_clean_yet_black demo threshold_gray 0).
  - unfold Image.wf. split; [vm_compute; discriminate |]. split; [vm_compute; discriminate |].
    split; [vm_compute; reflexivity |]. repeat constructor; vm_compute; discriminate.
  - vm_compute. reflexivity.
  - vm_compute. split; [discriminate | reflexivity].
  - vm_compute. reflexivity.
  - intros x' Hx'. change (0 <= x' < 2) in Hx'.
    assert (x' = 0 \/ x' = 1) as [-> | ->] by lia; vm_compute; discriminate.
Defined.

(** A document of uniform gray at the threshold: every page is accepted at
    the first probe, and every page written is black all over. *)
Example threshold_gray_document :
  match process_html (flat_render (threshold demo)) demo_height 25 demo "/book/gray.xhtml" 0
          (blank_world demo) with
  | Some (idx, w) =>
      idx = 3 /\
      captures (trace w) = 6%nat /\
      map interval (saved_pages (new_page demo) (trace w)) = [(0, 10); (10, 20); (20, 25)] /\
      Forall (fun s => Forall (fun pixel => pixel = 0) (Image.getdata (sv_image s)))
             (saved_pages (new_page demo) (trace w))
  | None => False
  end.
Proof. vm_compute. repeat split; repeat constructor. Qed.

(** Scenario D: a document of height 0 gives no page. *)
Example empty_document :
  process_html (strip_render lined) (fun _ => 0) 0 demo "/book/empty.xhtml" 7
    (blank_world demo) =
  Some (7, run_trace (load_events demo "/book/empty.xhtml") (blank_world demo)).
Proof. reflexivity. Qed.

(** * Further properties *)

(** ** The spine *)

Lemma before_char_app (c : ascii) (s t : string) :
  ~ In c (String.list_ascii_of_string s) -> Spine.before_char c (s +:+ String c t) = s.
Proof.
  induction s as [| a s IH]; simpl; intros Hnot.
  - rewrite Ascii.eqb_refl. reflexivity.
  - destruct (Ascii.eqb a c) eqn:E.
    + apply Ascii.eqb_eq in E. exfalso. apply Hnot. left. exact E.
    + rewrite IH; [reflexivity |]. intros Hin. apply Hnot. right. exact Hin.
Qed.

Lemma lstrip_char_absent (c : ascii) (s : string) :
  ~ In c (String.list_ascii_of_string s) -> Spine.lstrip_char c s = s.
Proof.
  destruct s as [| a s]; simpl; intros Hnot; [reflexivity |].
  destruct (Ascii.eqb a c) eqn:E; [| reflexivity].
  apply Ascii.eqb_eq in E. exfalso. apply Hnot. left. exact E.
Qed.

Lemma rstrip_char_absent (c : ascii) (s : string) :
  ~ In c (String.list_ascii_of_string s) -> Spine.rstrip_char c s = s.
Proof.
  induction s as [| a s IH]; simpl; intros Hnot; [reflexivity |].
  rewrite IH by (intros Hin; apply Hnot; right; exact Hin).
  destruct s as [| b s]; [| reflexivity].
  destruct (Ascii.eqb a c) eqn:E; [| reflexivity].
  apply Ascii.eqb_eq in E. exfalso. apply Hnot. left. exact E.
Qed.

(** X19: the namespace taken from a root tag of the form [{uri}local] is
    [uri], for a [uri] that holds no brace. *)
Theorem opf_namespace_of_qualified_tag (uri name : string) :
  ~ In "{"%char (String.list_ascii_of_string uri) ->
  ~ In "}"%char (String.list_ascii_of_string uri) ->
  Spine.opf_namespace ("{" +:+ uri +:+ "}" +:+ name) = uri.
Proof.
  intros Hopen Hclose. unfold Spine.opf_namespace.
  change ("{" +:+ uri +:+ "}" +:+ name) with (String "{" (uri +:+ String "}" name)).
  cbn [Spine.before_char]. change (Ascii.eqb "{" "}") with false. cbv iota.
  rewrite before_char_app by exact Hclose.
  unfold Spine.strip_char. cbn [Spine.lstrip_char]. rewrite Ascii.eqb_refl.
  rewrite lstrip_char_absent, rstrip_char_absent by assumption. reflexivity.
Qed.

Lemma build_manifest_snoc (items : list (gmap string string)) (item : gmap string string) :
  Spine.build_manifest (items ++ [item]) =
  <[item !! "id" := item !! "href"]> (Spine.build_manifest items).
Proof. unfold Spine.build_manifest. rewrite foldl_app. reflexivity. Qed.

(** The manifest holds the [href] of the last item with a given id. *)
Lemma build_manifest_later (items later : list (gmap string string)) (k : option string) :
  Forall (fun it : gmap string string => it !! "id" <> k) later ->
  Spine.build_manifest (items ++ later) !! k = Spine.build_manifest items !! k.
Proof.
  induction later as [| it later IH] using rev_ind; intros Hlater.
  - rewrite app_nil_r. reflexivity.
  - apply Forall_app in Hlater as [Hlater Hit]. inversion Hit as [| ? ? Hne _]; subst.
    rewrite app_assoc, build_manifest_snoc, lookup_insert_ne by exact Hne.
    apply IH, Hlater.
Qed.

(** X18: when several items of the manifest share an id, the [href] of the
    last of them is the one the manifest keeps; an id no item has is not
    in the manifest. *)
Theorem build_manifest_last_wins (items later : list (gmap string string))
    (item : gmap string string) :
  Forall (fun it : gmap string string => it !! "id" <> item !! "id") later ->
  Spine.build_manifest (items ++ item :: later) !! (item !! "id") = Some (item !! "href") /\
  forall k, Forall (fun it : gmap string string => it !! "id" <> k) (items ++ item :: later) ->
            Spine.build_manifest (items ++ item :: later) !! k = None.
Proof.
  intros Hlater. split.
  - change (items ++ item :: later) with (items ++ [item] ++ later).
    rewrite app_assoc, build_manifest_later by exact Hlater.
    rewrite build_manifest_snoc. apply lookup_insert_eq.
  - intros k Hall.
    rewrite <- (app_nil_l (items ++ item :: later)), build_manifest_later by exact Hall.
    reflexivity.
Qed.

Lemma spine_loop_ok (workdir : Spine.Workdir) (opf_path : string)
    (manifest : gmap (option string) (option string)) (spine_items : list (option string)) :
  forall htmls,
    Forall (fun item_id => manifest !! item_id <> Some None /\
                           Spine.paths_ok workdir opf_path manifest item_id) spine_items ->
    Spine.spine_loop workdir opf_path manifest spine_items htmls =
    inr (htmls ++ omap (Spine.spine_target workdir opf_path manifest) spine_items).
Proof.
  induction spine_items as [| item_id rest IH]; intros htmls Hok.
  - cbn. rewrite app_nil_r. reflexivity.
  - inversion Hok as [| ? ? [Hhere Hpaths] Hrest]; subst.
    cbn [Spine.spine_loop omap list_omap]. unfold Spine.spine_target at 1.
    destruct (manifest !! item_id) as [[href |] |] eqn:E; [| congruence |].
    + destruct (Hpaths href E) as (html_path & found & -> & ->).
      destruct found.
      * rewrite IH by exact Hrest. rewrite <- app_assoc. reflexivity.
      * apply IH, Hrest.
    + apply IH, Hrest.
Qed.

(** An exception of [exists()] on a document ends the loop with it. *)
Lemma spine_loop_exists_raises (workdir : Spine.Workdir) (opf_path : string)
    (manifest : gmap (option string) (option string)) (item_id : option string)
    (rest : list (option string)) (htmls : list string) (href html_path exn : string) :
  manifest !! item_id = Some (Some href) ->
  Spine.resolve_href workdir opf_path href = inr html_path ->
  Spine.path_exists workdir html_path = inl exn ->
  Spine.spine_loop workdir opf_path manifest (item_id :: rest) htmls = inl exn.
Proof. intros Hhref Hresolve Hexists. cbn. rewrite Hhref, Hresolve, Hexists. reflexivity. Qed.

(** A reached manifest entry without [href] leaves no list to return. *)
Lemma spine_loop_raises (workdir : Spine.Workdir) (opf_path : string)
    (manifest : gmap (option string) (option string)) (spine_items : list (option string)) :
  forall htmls,
    Exists (fun item_id => manifest !! item_id = Some None) spine_items ->
    exists exn, Spine.spine_loop workdir opf_path manifest spine_items htmls = inl exn.
Proof.
  induction spine_items as [| item_id rest IH]; intros htmls Hbad.
  - inversion Hbad.
  - cbn [Spine.spine_loop].
    destruct (manifest !! item_id) as [[href |] |] eqn:E.
    + inversion Hbad as [? ? Hhere | ? ? Hrest]; subst; [congruence |].
      destruct (Spine.resolve_href workdir opf_path href) as [exn | html_path];
        [exists exn; reflexivity |].
      destruct (Spine.path_exists workdir html_path) as [exn | []];
        [exists exn; reflexivity | apply IH, Hrest | apply IH, Hrest].
    + exists "TypeError". reflexivity.
    + inversion Hbad as [? ? Hhere | ? ? Hrest]; subst; [congruence |].
      apply IH, Hrest.
Qed.

Lemma spine_loop_type_error (workdir : Spine.Workdir) (opf_path : string)
    (manifest : gmap (option string) (option string)) (spine_items : list (option string)) :
  forall htmls,
    Exists (fun item_id => manifest !! item_id = Some None) spine_items ->
    Forall (Spine.paths_ok workdir opf_path manifest) spine_items ->
    Spine.spine_loop workdir opf_path manifest spine_items htmls = inl "TypeError".
Proof.
  induction spine_items as [| item_id rest IH]; intros htmls Hbad Hpaths.
  - inversion Hbad.
  - inversion Hpaths as [| ? ? Hhere_ok Hrest_ok]; subst.
    cbn [Spine.spine_loop].
    destruct (manifest !! item_id) as [[href |] |] eqn:E; [| reflexivity |].
    + inversion Hbad as [? ? Hhere | ? ? Hrest]; subst; [congruence |].
      destruct (Hhere_ok href E) as (html_path & found & -> & ->).
      destruct found; apply IH; assumption.
    + inversion Hbad as [? ? Hhere | ? ? Hrest]; subst; [congruence |].
      apply IH; assumption.
Qed.

Lemma spine_idrefs_Forall (P : option string -> Prop) (itemrefs : list (gmap string string)) :
  Forall (fun it : gmap string string => Spine.is_linear it = true -> P (it !! "idref"))
         itemrefs ->
  Forall P (Spine.spine_idrefs itemrefs).
Proof.
  intros Hall. unfold Spine.spine_idrefs. rewrite Forall_forall in Hall. apply Forall_forall.
  intros item_id Hin. apply list_elem_of_In, in_map_iff in Hin as (it & <- & Hit).
  apply filter_In in Hit as [Hit Hlinear].
  apply Hall; [apply list_elem_of_In, Hit | exact Hlinear].
Qed.

Section SpineClaims.

Variable unzip : string -> string + Spine.Workdir.

(** X16: on an archive that has its container and package documents, and
    where no manifest entry a linear itemref refers to lacks its [href]
    and neither [resolve()] nor [exists()] raises on such an entry,
    [extract_spine_htmls] returns, in the order of the spine, the resolved
    paths of the itemrefs that are not marked [linear="no"], whose [idref]
    is an id of the manifest and whose file exists; the other itemrefs are
    passed over. *)
Theorem extract_spine_htmls_in_spine_order (self : EPUBSmartSplitter)
    (workdir : Spine.Workdir) (rootfile : gmap string string) (opf_path : string)
    (package : Spine.Package) :
  unzip (epub_path self) = inr workdir ->
  Spine.container_exists workdir = true ->
  Spine.container_rootfile workdir = inr (Some rootfile) ->
  rootfile !! "full-path" = Some opf_path ->
  Spine.parse_opf workdir opf_path = inr package ->
  Forall (fun it : gmap string string =>
            Spine.is_linear it = true ->
            Spine.build_manifest
              (Spine.findall package (Spine.opf_namespace (Spine.tag package))
                 "opf:manifest/opf:item") !! (it !! "idref") <> Some None /\
            Spine.paths_ok workdir opf_path
              (Spine.build_manifest
                 (Spine.findall package (Spine.opf_namespace (Spine.tag package))
                    "opf:manifest/opf:item"))
              (it !! "idref"))
         (Spine.findall package (Spine.opf_namespace (Spine.tag package))
            "opf:spine/opf:itemref") ->
  Spine.extract_spine_htmls unzip self =
  inr (omap (fun it : gmap string string =>
               if Spine.is_linear it
               then Spine.spine_target workdir opf_path
                      (Spine.build_manifest
                         (Spine.findall package (Spine.opf_namespace (Spine.tag package))
                            "opf:manifest/opf:item"))
                      (it !! "idref")
               else None)
            (Spine.findall package (Spine.opf_namespace (Spine.tag package))
               "opf:spine/opf:itemref")).
Proof.
  intros Hzip Hcontainer Hroot Hpath Hopf Hhref.
  unfold Spine.extract_spine_htmls.
  rewrite Hzip, Hcontainer, Hroot, Hpath, Hopf. cbn [negb].
  set (manifest := Spine.build_manifest _) in *.
  set (itemrefs := Spine.findall package _ "opf:spine/opf:itemref") in *.
  rewrite spine_loop_ok.
  - cbn [app]. f_equal. unfold Spine.spine_idrefs.
    clear Hhref. induction itemrefs as [| it itemrefs IH]; [reflexivity |].
    cbn [List.filter omap list_omap]. destruct (Spine.is_linear it); cbn; rewrite IH; reflexivity.
  - apply spine_idrefs_Forall. exact Hhref.
Qed.

(** X17: when a linear itemref of the spine refers to a manifest item
    without [href], [extract_spine_htmls] returns no list: it ends in an
    exception, whatever the other documents are; and the exception is the
    [TypeError] of the missing [href] when neither [resolve()] nor
    [exists()] raises on the entries of the spine. *)
Theorem extract_spine_htmls_missing_href (self : EPUBSmartSplitter)
    (workdir : Spine.Workdir) (rootfile : gmap string string) (opf_path : string)
    (package : Spine.Package) (it : gmap string string) :
  unzip (epub_path self) = inr workdir ->
  Spine.container_exists workdir = true ->
  Spine.container_rootfile workdir = inr (Some rootfile) ->
  rootfile !! "full-path" = Some opf_path ->
  Spine.parse_opf workdir opf_path = inr package ->
  In it (Spine.findall package (Spine.opf_namespace (Spine.tag package))
           "opf:spine/opf:itemref") ->
  Spine.is_linear it = true ->
  Spine.build_manifest
    (Spine.findall package (Spine.opf_namespace (Spine.tag package))
       "opf:manifest/opf:item") !! (it !! "idref") = Some None ->
  (exists exn, Spine.extract_spine_htmls unzip self = inl exn) /\
  (Forall (fun it' : gmap string string =>
             Spine.is_linear it' = true ->
             Spine.paths_ok workdir opf_path
               (Spine.build_manifest
                  (Spine.findall package (Spine.opf_namespace (Spine.tag package))
                     "opf:manifest/opf:item"))
               (it' !! "idref"))
          (Spine.findall package (Spine.opf_namespace (Spine.tag package))
             "opf:spine/opf:itemref") ->
   Spine.extract_spine_htmls unzip self = inl "TypeError").
Proof.
  intros Hzip Hcontainer Hroot Hpath Hopf Hin Hlinear Hnone.
  unfold Spine.extract_spine_htmls.
  rewrite Hzip, Hcontainer, Hroot, Hpath, Hopf. cbn [negb].
  assert (Exists (fun item_id =>
                    Spine.build_manifest
                      (Spine.findall package (Spine.opf_namespace (Spine.tag package))
                         "opf:manifest/opf:item") !! item_id = Some None)
                 (Spine.spine_idrefs
                    (Spine.findall package (Spine.opf_namespace (Spine.tag package))
                       "opf:spine/opf:itemref"))) as Hbad.
  { apply Exists_exists. exists (it !! "idref"). split; [| exact Hnone].
    unfold Spine.spine_idrefs. apply list_elem_of_In, in_map_iff.
    exists it. split; [reflexivity |]. apply filter_In. split; assumption. }
  split.
  - apply spine_loop_raises, Hbad.
  - intros Hpaths. apply spine_loop_type_error; [exact Hbad |].
    apply spine_idrefs_Forall. exact Hpaths.
Qed.

End SpineClaims.

(** ** More on the locator *)

Lemma is_text_cut_off_true (self : EPUBSmartSplitter) (image : Image.t) :
  is_text_cut_off self image = true <->
  exists x, 0 <= x < Image.width image /\
            Image.getpixel image x (Image.height image - 1) < threshold self.
Proof.
  unfold is_text_cut_off. rewrite bottom_row_data, existsb_exists. split.
  - intros (pixel & Hin & Hlt). apply in_map_iff in Hin as (x & <- & Hx).
    apply range_up_elem in Hx. exists x. split; lia.
  - intros (x & Hx & Hlt). exists (Image.getpixel image x (Image.height image - 1)).
    split; [| lia]. apply in_map_iff. exists x. split; [reflexivity |].
    apply range_up_elem. lia.
Qed.

(** X1: [is_text_cut_off] looks at the last row only: it reports a cut
    exactly when some pixel of that row is below the threshold.  An image
    without columns is never cut off. *)
Theorem is_text_cut_off_iff (self : EPUBSmartSplitter) (image : Image.t) :
  (is_text_cut_off self image = true <->
   exists x, 0 <= x < Image.width image /\
             Image.getpixel image x (Image.height image - 1) < threshold self) /\
  (Image.width image <= 0 -> is_text_cut_off self image = false).
Proof.
  split; [apply is_text_cut_off_true |].
  intros Hw. apply not_true_is_false. rewrite is_text_cut_off_true.
  intros (x & Hx & _). lia.
Qed.

Lemma point_binarize_bits (self : EPUBSmartSplitter) (image : Image.t) :
  Forall (fun pixel => pixel = 0 \/ pixel = 255)
         (Image.getdata (Image.point (binarize self) image)).
Proof.
  unfold Image.point, Image.lut. cbn [Image.getdata]. apply Forall_forall.
  intros pixel Hin. apply list_elem_of_In, in_map_iff in Hin as (p & <- & _).
  set (table := map (binarize self) (range_up 0 256)).
  destruct (nth_in_or_default (Z.to_nat p) table 0) as [Hin | Hdefault];
    [| left; exact Hdefault].
  apply in_map_iff in Hin as (q & <- & _).
  unfold binarize. destruct (q >? threshold self); [right | left]; reflexivity.
Qed.

Section LocatorExtras.

Variable render : Page -> Image.t.

Lemma find_clean_break_start_or_clean (self : EPUBSmartSplitter)
    (top max_height : Z) (w : World) :
  fst (find_clean_break render self top max_height w) = Z.min max_height (base_height self) \/
  (int_mul_0_3 (base_height self)
     <= fst (find_clean_break render self top max_height w)
     < Z.min max_height (base_height self) /\
   is_text_cut_off self
     (render (probe_page self (page w) top
                (fst (find_clean_break render self top max_height w)))) = false).
Proof.
  rewrite find_clean_break_spec. cbn [fst].
  destruct (List.find _ _) as [r |] eqn:E; [| left; reflexivity].
  apply find_range_down_Some in E as (Hr & Hclean & _).
  destruct (Z.eq_dec r (Z.min max_height (base_height self))) as [-> | Hne];
    [left; reflexivity | right].
  split; [lia |]. unfold clean_at in Hclean. apply negb_true_iff in Hclean. exact Hclean.
Qed.

(** X2: a height [find_clean_break] returns is the start height
    [min(max_height, base_height)], or else a candidate at least the
    minimum height whose capture has no pixel below the threshold in its
    bottom row: a shorter page is never chosen on a capture that is cut
    off. *)
Theorem find_clean_break_shorter_is_clean (self : EPUBSmartSplitter)
    (top max_height : Z) (w : World) :
  fst (find_clean_break render self top max_height w) = Z.min max_height (base_height self) \/
  (int_mul_0_3 (base_height self)
     <= fst (find_clean_break render self top max_height w)
     < Z.min max_height (base_height self) /\
   Forall (fun pixel => ~ pixel < threshold self)
     (Image.getdata
        (bottom_row
           (render (probe_page self (page w) top
                      (fst (find_clean_break render self top max_height w))))))).
Proof.
  destruct (find_clean_break_start_or_clean self top max_height w) as [H | [H Hclean]];
    [left; exact H | right].
  split; [exact H |]. apply is_text_cut_off_false, Hclean.
Qed.

(** X3: [find_clean_break] only resizes, scrolls, waits and captures: it
    writes no file, and the page still shows the same document with the
    same injected style. *)
Theorem find_clean_break_only_probes (self : EPUBSmartSplitter)
    (top max_height : Z) (w : World) :
  files (snd (find_clean_break render self top max_height w)) = files w /\
  location (page (snd (find_clean_break render self top max_height w))) = location (page w) /\
  font_size (page (snd (find_clean_break render self top max_height w))) = font_size (page w) /\
  exists tr,
    trace (snd (find_clean_break render self top max_height w)) = trace w ++ tr /\
    Forall (fun e => match e with
                     | EvViewport _ _ | EvScroll _ | EvWait _ | EvScreenshot => True
                     | _ => False
                     end) tr.
Proof.
  destruct (find_clean_break_world render self top max_height w) as [hs ->].
  pose proof (probe_page_run_probes self self top hs w 0 0) as Hdoc.
  injection Hdoc as Hloc Hfont.
  split; [| split; [exact Hloc | split; [exact Hfont |]]].
  - rewrite run_trace_files, saved_pages_probes. reflexivity.
  - exists (flat_map (probe_events self top) hs). split; [apply run_trace_trace |].
    apply Forall_forall. intros e He.
    apply list_elem_of_In, in_flat_map in He as (h & _ & He).
    cbn in He. destruct He as [<- | [<- | [<- | [<- | []]]]]; exact I.
Qed.

(** X4: what [find_clean_break] returns does not depend on the viewport
    or the scroll offset the page was left with, nor on the files or the
    trace: two worlds that show the same document with the same injected
    style give the same height. *)
Theorem find_clean_break_state_independent (self : EPUBSmartSplitter)
    (top max_height : Z) (w w' : World) :
  location (page w) = location (page w') ->
  font_size (page w) = font_size (page w') ->
  fst (find_clean_break render self top max_height w) =
  fst (find_clean_break render self top max_height w').
Proof.
  intros Hloc Hfont. apply find_clean_break_same_doc.
  apply probe_page_ext; assumption.
Qed.

(** X5: with a threshold of 0 or less no capture of gray values is ever
    cut off, so the search is off: [find_clean_break] returns the start
    height [min(max_height, base_height)] after at most one capture. *)
Theorem find_clean_break_threshold_off (self : EPUBSmartSplitter)
    (top max_height : Z) (w : World) :
  threshold self <= 0 ->
  (forall p, Forall (fun pixel => 0 <= pixel) (Image.getdata (render p))) ->
  fst (find_clean_break render self top max_height w) = Z.min max_height (base_height self) /\
  (captures_during (find_clean_break render self top max_height) w <= 1)%nat.
Proof.
  intros Hthr Hgray.
  assert (forall h, clean_at render self (page w) top h = true) as Hclean.
  { intros h. unfold clean_at. apply negb_true_iff, not_true_is_false.
    rewrite is_text_cut_off_true. intros (x & Hx & Hlt).
    set (im := render (probe_page self (page w) top h)) in *.
    assert (0 <= Image.getpixel im x (Image.height im - 1)); [| lia].
    unfold Image.getpixel. destruct (_ && _); [| lia].
    destruct (nth_in_or_default (Z.to_nat ((Image.height im - 1) * Image.width im + x))
                (Image.getdata im) 0) as [Hin | ->]; [| lia].
    specialize (Hgray (probe_page self (page w) top h)). rewrite Forall_forall in Hgray.
    apply Hgray, list_elem_of_In, Hin. }
  rewrite find_clean_break_captures, find_clean_break_spec. cbn [fst].
  set (start := Z.min max_height (base_height self)).
  set (floor := int_mul_0_3 (base_height self)).
  destruct (Z_lt_le_dec (floor - 1) start) as [Hlt | Hge].
  - rewrite range_down_cons by lia. cbn [List.find take_until].
    rewrite Hclean. split; [reflexivity | cbn; lia].
  - rewrite range_down_nil by lia. split; [reflexivity | cbn; lia].
Qed.

End LocatorExtras.

(** ** More on the driver *)

Lemma gotos_app (tr1 tr2 : list Event) : gotos (tr1 ++ tr2) = gotos tr1 ++ gotos tr2.
Proof. unfold gotos. apply omap_app. Qed.

Lemma gotos_probes (self : EPUBSmartSplitter) (top : Z) (hs : list Z) :
  gotos (flat_map (probe_events self top) hs) = [].
Proof.
  induction hs as [| h hs IH]; [reflexivity |].
  cbn [flat_map]. rewrite gotos_app, IH. reflexivity.
Qed.

Lemma run_trace_inj (tr tr' : list Event) (w : World) :
  run_trace tr w = run_trace tr' w -> tr = tr'.
Proof.
  intros H. apply (f_equal trace) in H. rewrite !run_trace_trace in H.
  apply app_inv_head in H. exact H.
Qed.

Lemma tiling_span_le (H : Z) (a b : Z) (ivs : list (Z * Z)) :
  tiling a ivs b -> Forall (fun iv => iv.2 - iv.1 <= H) ivs ->
  b - a <= H * Z.of_nat (length ivs).
Proof.
  revert a. induction ivs as [| iv ivs IH]; intros a; cbn [tiling length].
  - intros <- _. lia.
  - intros (Hstart & Hlt & Hrest) Hall. inversion Hall as [| ? ? Hiv Hall']; subst.
    specialize (IH _ Hrest Hall'). lia.
Qed.

Lemma tiling_span_gt (F : Z) (a b : Z) (ivs : list (Z * Z)) :
  0 <= F -> tiling a ivs b -> Forall (fun iv => iv.2 < b -> F <= iv.2 - iv.1) ivs ->
  ivs <> [] -> F * (Z.of_nat (length ivs) - 1) < b - a.
Proof.
  intros HF. revert a. induction ivs as [| iv ivs IH]; intros a; [congruence |].
  cbn [tiling]. intros (Hstart & Hlt & Hrest) Hall _.
  inversion Hall as [| ? ? Hiv Hall']; subst.
  destruct ivs as [| iv' ivs].
  - cbn in Hrest. cbn [length]. lia.
  - assert (iv.2 < b) as Hnotlast.
    { cbn [tiling] in Hrest. destruct Hrest as (Hs & Hl & Hr). apply tiling_le in Hr. lia. }
    specialize (IH _ Hrest Hall' ltac:(discriminate)). specialize (Hiv Hnotlast).
    cbn [length] in *. lia.
Qed.

Lemma save_all_dom (pages : list Saved) (fs : gmap string File) :
  dom (save_all pages fs) = list_to_set (map sv_name pages) ∪ dom fs.
Proof.
  unfold save_all. revert fs. induction pages as [| s pages IH]; intros fs.
  - cbn. rewrite (left_id_L ∅ (∪)). reflexivity.
  - cbn [foldl map list_to_set]. rewrite IH, dom_insert_L.
    apply set_eq. intros x. rewrite !elem_of_union. tauto.
Qed.

Section DriverExtras.

Variable render : Page -> Image.t.
Variable scrollHeight : Page -> Z.

(** The world in which [process_html] reads the total height. *)
Local Abbreviation loaded self html_path w := (run_trace (load_events self html_path) w).

(** Whenever the [while] loop ends, every page it wrote starts below the
    total height, has the height the locator gives for its offset and is
    the binarized capture of that slice; the loop navigates nowhere. *)
Lemma process_html_loop_pages (self : EPUBSmartSplitter) (total : Z) (fuel : nat) :
  forall (top idx : Z) (w : World) (idx' : Z) (w' : World),
    process_html_loop render fuel self total top idx w = Some (idx', w') ->
    exists tr,
      w' = run_trace tr w /\
      gotos tr = [] /\
      Forall (fun s =>
                sv_top s < total /\
                sv_height s =
                  fst (find_clean_break render self (sv_top s) (total - sv_top s) w) /\
                sv_image s =
                  Image.point (binarize self)
                    (render (probe_page self (page w) (sv_top s) (sv_height s))))
             (saved_pages (page w) tr).
Proof.
  induction fuel as [| fuel IH]; intros top idx w idx' w'; cbn [process_html_loop].
  - destruct (top <? total); [discriminate |]. intros [= <- <-].
    exists []. split; [reflexivity |]. split; [reflexivity | constructor].
  - destruct (top <? total) eqn:Elt.
    + apply Z.ltb_lt in Elt.
      destruct (process_html_page_spec render self total top idx w) as [hs Hpage].
      cbv zeta in Hpage. rewrite Hpage. clear Hpage.
      set (h := fst (find_clean_break render self top (total - top) w)).
      set (im := Image.point (binarize self) (render (probe_page self (page w) top h))).
      set (turn := flat_map (probe_events self top) hs ++ page_events self top idx h im).
      intros Hrun. apply IH in Hrun as (tr & -> & Hgoto & Hpages).
      assert (page (run_trace turn w) = probe_page self (page w) top h) as Hpage'
        by (rewrite run_trace_page; apply page_after_turn).
      assert (probe_page self (page (run_trace turn w)) 0 0 = probe_page self (page w) 0 0)
        as Hdoc by (rewrite Hpage'; reflexivity).
      exists (turn ++ tr). split; [symmetry; apply run_trace_app |]. split.
      * rewrite gotos_app, Hgoto. unfold turn. rewrite gotos_app, gotos_probes. reflexivity.
      * rewrite saved_pages_app, <- run_trace_page. unfold turn at 1.
        rewrite saved_pages_turn. constructor.
        -- cbn [sv_top sv_height sv_image]. split; [exact Elt |]. split; reflexivity.
        -- eapply Forall_impl; [exact Hpages |]. cbn beta.
           intros s (Htop & Hheight & Himage). split; [exact Htop |]. split.
           ++ rewrite Hheight. apply find_clean_break_same_doc, Hdoc.
           ++ rewrite Himage, (probe_page_same_doc _ _ _ Hdoc). reflexivity.
    + intros [= <- <-].
      exists []. split; [reflexivity |]. split; [reflexivity | constructor].
Qed.

(** X6: every page [process_html] writes either has the start height
    [min(remaining_height, base_height)] of its offset, or is shorter, at
    least the minimum height, and then the capture it is the binarized
    image of has no pixel below the threshold in its bottom row. *)
Theorem process_html_pages_clean_or_full (fuel : nat) (self : EPUBSmartSplitter)
    (html_path : string) (start_idx : Z) (w : World) (idx' : Z) (w' : World) :
  process_html render scrollHeight fuel self html_path start_idx w = Some (idx', w') ->
  exists tr,
    w' = run_trace tr (loaded self html_path w) /\
    Forall (fun s =>
              sv_image s =
                Image.point (binarize self)
                  (render (probe_page self (page (loaded self html_path w))
                             (sv_top s) (sv_height s))) /\
              (sv_height s =
                 Z.min (scrollHeight (page (loaded self html_path w)) - sv_top s)
                       (base_height self) \/
               (int_mul_0_3 (base_height self) <= sv_height s
                  < Z.min (scrollHeight (page (loaded self html_path w)) - sv_top s)
                          (base_height self) /\
                is_text_cut_off self
                  (render (probe_page self (page (loaded self html_path w))
                             (sv_top s) (sv_height s))) = false)))
           (saved_pages (page (loaded self html_path w)) tr).
Proof.
  rewrite process_html_unfold. intros Hrun.
  apply process_html_loop_pages in Hrun as (tr & -> & _ & Hpages).
  exists tr. split; [reflexivity |].
  eapply Forall_impl; [exact Hpages |]. cbn beta.
  intros s (_ & Hheight & Himage). split; [exact Himage |].
  pose proof (find_clean_break_start_or_clean render self (sv_top s)
                (scrollHeight (page (loaded self html_path w)) - sv_top s)
                (loaded self html_path w)) as Hclean.
  rewrite <- Hheight in Hclean. exact Hclean.
Qed.

End DriverExtras.

Section RunExtras.

Variable render : Page -> Image.t.
Variable scrollHeight : Page -> Z.
Variable extract_spine_htmls : EPUBSmartSplitter -> string + list string.

Local Abbreviation loaded self html_path w := (run_trace (load_events self html_path) w).

(** X7: for a base height from 0 to 4096, where the minimum height
    Python computes in binary64 is [floor(0.3 * base_height)], no page
    [process_html] writes is taller than the base height or reaches past
    the end of the document, and every page that ends before the end of
    the document is at least [floor(0.3 * base_height)] tall: only the
    last page of a document can be shorter. *)
Theorem process_html_page_heights (fuel : nat) (self : EPUBSmartSplitter)
    (html_path : string) (start_idx : Z) (w : World) (idx' : Z) (w' : World) :
  0 <= base_height self <= 4096 ->
  process_html render scrollHeight fuel self html_path start_idx w = Some (idx', w') ->
  int_mul_0_3_binary64 (base_height self) = Some (3 * base_height self / 10) /\
  exists tr,
    w' = run_trace tr (loaded self html_path w) /\
    Forall (fun s =>
              sv_height s <= base_height self /\
              sv_top s + sv_height s <= scrollHeight (page (loaded self html_path w)) /\
              (sv_top s + sv_height s < scrollHeight (page (loaded self html_path w)) ->
               3 * base_height self / 10 <= sv_height s))
           (saved_pages (page (loaded self html_path w)) tr).
Proof.
  intros Hbound. assert (0 <= base_height self) as Hbase by lia.
  rewrite process_html_unfold. intros Hrun.
  split.
  { rewrite <- (int_mul_0_3_floor _ Hbase). apply int_mul_0_3_binary64_agrees, Hbound. }
  apply process_html_loop_pages in Hrun as (tr & -> & _ & Hpages).
  exists tr. split; [reflexivity |].
  eapply Forall_impl; [exact Hpages |]. cbn beta.
  intros s (Htop & Hheight & _).
  pose proof (find_clean_break_range render self (sv_top s)
                (scrollHeight (page (loaded self html_path w)) - sv_top s)
                (loaded self html_path w)) as Hrange.
  cbv zeta in Hrange. rewrite <- Hheight in Hrange.
  pose proof (int_mul_0_3_le _ Hbase) as Hfloor.
  rewrite (int_mul_0_3_floor _ Hbase) in Hrange, Hfloor. lia.
Qed.

(** X8: for a base height from 4 to 4096, where the minimum height
    Python computes in binary64 is [floor(0.3 * base_height)],
    [process_html] ends within as many turns as the document is tall, and
    the number [n] of pages it writes (the growth of the index) is bounded
    by the height of the document: [n] pages of the base height cover it,
    and [n - 1] pages of [floor(0.3 * base_height)] do not. *)
Theorem process_html_page_count (fuel : nat) (self : EPUBSmartSplitter)
    (html_path : string) (start_idx : Z) (w : World) :
  4 <= base_height self <= 4096 ->
  (Z.to_nat (scrollHeight (page (loaded self html_path w))) <= fuel)%nat ->
  int_mul_0_3_binary64 (base_height self) = Some (3 * base_height self / 10) /\
  exists idx' w',
    process_html render scrollHeight fuel self html_path start_idx w = Some (idx', w') /\
    start_idx <= idx' /\
    scrollHeight (page (loaded self html_path w)) <= (idx' - start_idx) * base_height self /\
    (start_idx < idx' ->
     (idx' - start_idx - 1) * (3 * base_height self / 10)
       < scrollHeight (page (loaded self html_path w))).
Proof.
  intros Hbound Hfuel. assert (4 <= base_height self) as Hbase by lia.
  split.
  { rewrite <- (int_mul_0_3_floor (base_height self)) by lia.
    apply int_mul_0_3_binary64_agrees. lia. }
  rewrite process_html_unfold.
  set (w1 := loaded self html_path w) in *.
  set (total := scrollHeight (page w1)) in *.
  destruct (process_html_loop_run render self total w1) with (fuel := fuel) (top := 0)
    (idx := start_idx) (w := w1) as (idx' & tr & Hrun & Hle & Htil & Hnames & _).
  { intros top _ Htop. apply find_clean_break_pos; lia. }
  { constructor. }
  { reflexivity. }
  { lia. }
  exists idx', (run_trace tr w1). split; [exact Hrun |]. split; [exact Hle |].
  destruct (process_html_loop_pages render self total fuel _ _ _ _ _ Hrun)
    as (tr' & Heq & _ & Hpages).
  apply run_trace_inj in Heq. subst tr'.
  assert (Z.of_nat (length (map interval (saved_pages (page w1) tr))) = idx' - start_idx)
    as Hlen.
  { rewrite length_map, <- (length_map sv_name), Hnames, length_map, range_up_length. lia. }
  assert (Forall (fun s => sv_height s <= base_height self /\
                           (sv_top s + sv_height s < total ->
                            3 * base_height self / 10 <= sv_height s))
                 (saved_pages (page w1) tr)) as Hheights.
  { eapply Forall_impl; [exact Hpages |]. cbn beta. intros s (Htop & Hheight & _).
    pose proof (find_clean_break_range render self (sv_top s) (total - sv_top s) w1) as Hr.
    cbv zeta in Hr. rewrite <- Hheight in Hr.
    assert (0 <= base_height self) as Hbase0 by lia.
    pose proof (int_mul_0_3_le _ Hbase0) as Hfloor.
    rewrite (int_mul_0_3_floor _ Hbase0) in Hr, Hfloor. lia. }
  split.
  - pose proof (tiling_span_le (base_height self) _ _ _ Htil) as Hspan.
    rewrite Hlen in Hspan. rewrite Z.mul_comm.
    assert (Z.max 0 total - 0 <= base_height self * (idx' - start_idx)); [| lia].
    apply Hspan. apply Forall_fmap. eapply Forall_impl; [exact Hheights |].
    cbn. intros s [Hs _]. lia.
  - intros Hsome.
    assert (0 < total) as Htotal.
    { destruct (Z_lt_le_dec 0 total) as [Hpos | Hneg]; [exact Hpos |].
      replace (Z.max 0 total) with 0 in Htil by lia.
      destruct (map interval (saved_pages (page w1) tr)) as [| iv ivs] eqn:E.
      - cbn in Hlen. lia.
      - cbn [tiling] in Htil. destruct Htil as (_ & Hlt & Hrest).
        apply tiling_le in Hrest. lia. }
    replace (Z.max 0 total) with total in Htil by lia.
    assert (0 <= 3 * base_height self / 10) as HF by (apply Z.div_pos; lia).
    pose proof (tiling_span_gt (3 * base_height self / 10) _ _ _ HF Htil) as Hspan.
    rewrite Hlen in Hspan. rewrite Z.mul_comm.
    assert (3 * base_height self / 10 * (idx' - start_idx - 1) < total - 0); [| lia].
    apply Hspan.
    + apply Forall_fmap. eapply Forall_impl; [exact Hheights |].
      cbn. intros s [_ Hs] Hnotlast. specialize (Hs Hnotlast). lia.
    + intros Hnil. rewrite Hnil in Hlen. cbn in Hlen. lia.
Qed.

Lemma process_loop_run (self : EPUBSmartSplitter) (fuel : nat) (height : Z) :
  4 <= base_height self ->
  (forall p, scrollHeight p <= height) ->
  (Z.to_nat height <= fuel)%nat ->
  forall (html_files : list string) (idx : Z) (w : World),
  exists idx' tr,
    process_loop render scrollHeight fuel self html_files idx w = Some (idx', run_trace tr w) /\
    gotos tr = html_files.
Proof.
  intros Hbase Hheight Hfuel. induction html_files as [| html_file rest IH]; intros idx w.
  - exists idx, []. split; reflexivity.
  - cbn [process_loop].
    change (print ("Processing " +:+ path_name html_file) w)
      with (tt, run_trace [EvPrint ("Processing " +:+ path_name html_file)] w).
    cbv iota beta.
    set (w0 := run_trace [EvPrint ("Processing " +:+ path_name html_file)] w).
    rewrite process_html_unfold.
    set (w1 := loaded self html_file w0).
    destruct (process_html_loop_run render self (scrollHeight (page w1)) w1)
      with (fuel := fuel) (top := 0) (idx := idx) (w := w1) as (idx1 & tr1 & Hrun & _).
    { intros top _ Htop. apply find_clean_break_pos; lia. }
    { constructor. }
    { reflexivity. }
    { specialize (Hheight (page w1)). lia. }
    rewrite Hrun.
    destruct (process_html_loop_pages render self _ fuel _ _ _ _ _ Hrun)
      as (tr1' & Heq & Hgoto1 & _).
    apply run_trace_inj in Heq. subst tr1'.
    destruct (IH idx1 (run_trace tr1 w1)) as (idx' & tr2 & Hrest & Hgoto2).
    exists idx', ([EvPrint ("Processing " +:+ path_name html_file)] ++
                  load_events self html_file ++ tr1 ++ tr2).
    split.
    + rewrite Hrest. rewrite !run_trace_app. reflexivity.
    + rewrite !gotos_app, Hgoto1, Hgoto2. reflexivity.
Qed.

(** X9: for a base height of four pixels or more and documents no taller
    than [height], a run whose spine could be read completes within
    [height] turns per document (it does not loop for ever), and it loads
    the documents of the spine once each, in spine order. *)
Theorem process_completes (fuel : nat) (self : EPUBSmartSplitter)
    (entries : gmap string File) (height : Z) (html_files : list string) :
  4 <= base_height self ->
  (forall p, scrollHeight p <= height) ->
  (Z.to_nat height <= fuel)%nat ->
  extract_spine_htmls self = inr html_files ->
  exists n w,
    process render scrollHeight extract_spine_htmls fuel self entries = (Completed n, w) /\
    gotos (trace w) = html_files.
Proof.
  intros Hbase Hheight Hfuel Hspine. unfold process. rewrite Hspine.
  set (w0 := {| page := new_page self; files := entries; trace := [] |}).
  set (line := "Found " +:+ _).
  change (print line w0) with (tt, run_trace [EvPrint line] w0). cbv iota beta.
  destruct (process_loop_run self fuel height Hbase Hheight Hfuel html_files 0
              (run_trace [EvPrint line] w0)) as (n & tr & Hrun & Hgoto).
  rewrite Hrun.
  set (line' := "Done. Created " +:+ _).
  change (print line' (run_trace tr (run_trace [EvPrint line] w0)))
    with (tt, run_trace [EvPrint line'] (run_trace tr (run_trace [EvPrint line] w0))).
  cbv iota beta. eexists. eexists. split; [reflexivity |].
  rewrite !run_trace_trace. change (trace w0) with (@nil Event).
  rewrite !gotos_app, Hgoto. cbn. apply app_nil_r.
Qed.

End RunExtras.

(** ** More on the files written *)

(** X10: two pages with different indices that are not negative are
    saved under different names, also beyond index 9999: no page of a run
    overwrites another. *)
Theorem page_file_names_distinct (i j : Z) :
  0 <= i -> 0 <= j -> i <> j -> page_file_name i <> page_file_name j.
Proof.
  intros Hi Hj Hne Heq. apply Hne. apply page_file_name_inj; assumption.
Qed.

Section FileExtras.

Variable render : Page -> Image.t.
Variable scrollHeight : Page -> Z.
Variable extract_spine_htmls : EPUBSmartSplitter -> string + list string.

(** X11: when [main] completes with [n] pages, the output directory holds
    exactly the [n] files [0000.png], [0001.png], ... of the indices below
    [n], and nothing else. *)
Theorem main_output_directory_content (fuel : nat) (args : EPUBSmartSplitter)
    (outdir : PathState) (n : Z) (after : PathState) (tr : list Event) :
  main render scrollHeight extract_spine_htmls fuel args outdir = (Completed n, after, tr) ->
  exists fs : gmap string File,
    after = Directory fs /\
    size fs = Z.to_nat n /\
    forall name, is_Some (fs !! name) <-> exists i, 0 <= i < n /\ name = page_file_name i.
Proof.
  intros Hmain.
  assert (exists w, process render scrollHeight extract_spine_htmls fuel args ∅ =
                    (Completed n, w) /\ after = Directory (files w)) as (w & Hrun & ->).
  { unfold main in Hmain. destruct outdir as [| | entries]; [| discriminate |].
    - destruct (process _ _ _ _ _ _) as [res w]. injection Hmain as -> <- _.
      exists w. split; reflexivity.
    - destruct (any_path (iterdir entries)) eqn:Eany; [discriminate |].
      assert (entries = ∅) as ->.
      { destruct (decide (entries = ∅)) as [He | He]; [exact He |].
        apply any_path_iterdir in He. congruence. }
      destruct (process _ _ _ _ _ _) as [res w]. injection Hmain as -> <- _.
      exists w. split; reflexivity. }
  apply process_completed in Hrun as (Hw & Hn & Hnames & _).
  exists (files w). split; [reflexivity |].
  assert (dom (files w) = list_to_set (map page_file_name (range_up 0 n))) as Hdom.
  { rewrite Hw at 1. rewrite run_trace_files. cbn [page files].
    rewrite save_all_dom, Hnames, dom_empty_L, (right_id_L ∅ (∪)). reflexivity. }
  split.
  - rewrite <- size_dom, Hdom, size_list_to_set by apply page_file_names_NoDup.
    rewrite length_map, range_up_length. f_equal. lia.
  - intros name. rewrite <- elem_of_dom, Hdom, elem_of_list_to_set, list_elem_of_In, in_map_iff.
    split.
    + intros (i & <- & Hi). apply range_up_elem in Hi. exists i. split; [lia | reflexivity].
    + intros (i & Hi & ->). exists i. split; [reflexivity |]. apply range_up_elem. lia.
Qed.

(** X12: every image a run saves is 1-bit: each of its pixels is 0 or
    255, and it has the size of the capture it was made from. *)
Theorem process_pages_one_bit (fuel : nat) (self : EPUBSmartSplitter)
    (entries : gmap string File) (res : Outcome) (w : World) (name : string) (im : Image.t) :
  process render scrollHeight extract_spine_htmls fuel self entries = (res, w) ->
  In (EvSave name im) (trace w) ->
  Forall (fun pixel => pixel = 0 \/ pixel = 255) (Image.getdata im) /\
  exists p, Image.width im = Image.width (render p) /\
            Image.height im = Image.height (render p) /\
            length (Image.getdata im) = length (Image.getdata (render p)).
Proof.
  intros Hrun Hin.
  assert (exists n, res = Completed n) as [n ->].
  { unfold process in Hrun.
    destruct (extract_spine_htmls self) as [exn | html_files].
    - injection Hrun as <- <-. destruct Hin.
    - unfold print, command in Hrun. cbv beta iota in Hrun.
      destruct (process_loop _ _ _ _ _ _ _) as [[idx w2] |].
      + injection Hrun as <- _. eexists. reflexivity.
      + injection Hrun as <- <-. cbn in Hin. destruct Hin as [H | []]. discriminate. }
  apply process_completed in Hrun as (_ & _ & _ & Himgs).
  destruct (saved_pages_elem (new_page self) _ _ _ Hin) as (s & Hs & _ & <-).
  rewrite Forall_forall in Himgs.
  destruct (Himgs s (proj2 (list_elem_of_In _ _) Hs)) as [p ->].
  split; [apply point_binarize_bits |].
  exists p. split; [reflexivity |]. split; [reflexivity | apply length_map].
Qed.


End FileExtras.

(** ** The cost of a document *)

Section CostExtras.

Variable render : Page -> Image.t.
Variable scrollHeight : Page -> Z.

Local Abbreviation loaded self html_path w := (run_trace (load_events self html_path) w).

(** The most captures one page can take: one per candidate from the base
    height down to the minimum height, and the final one. *)
Local Abbreviation page_budget self :=
  (Z.max 0 (base_height self - int_mul_0_3 (base_height self) + 1) + 1).

Lemma process_html_page_captures (self : EPUBSmartSplitter) (total top idx : Z) (w : World) :
  exists tr,
    snd (process_html_page render self total top idx w) = run_trace tr w /\
    Z.of_nat (captures tr) <= page_budget self.
Proof.
  set (hs := take_until (clean_at render self (page w) top)
               (range_down (Z.min (total - top) (base_height self))
                           (int_mul_0_3 (base_height self) - 1))).
  set (h := fst (find_clean_break render self top (total - top) w)).
  exists (flat_map (probe_events self top) hs ++
          page_events self top idx h
            (Image.point (binarize self)
               (render (probe_page self (page (run_trace (flat_map (probe_events self top) hs) w))
                          top h)))).
  split.
  - unfold process_html_page, bind.
    pose proof (find_clean_break_spec render self top (total - top) w) as Hspec.
    cbv zeta in Hspec. fold hs in Hspec. fold h.
    destruct (find_clean_break render self top (total - top) w) as [h' w1].
    injection Hspec as Hh ->. cbn [fst] in h. subst h.
    rewrite run_trace_app. reflexivity.
  - rewrite captures_app, captures_probes.
    assert (Z.of_nat (length hs) <=
            Z.max 0 (Z.min (total - top) (base_height self)
                     - int_mul_0_3 (base_height self) + 1)) as Hlen.
    { etransitivity; [apply inj_le, take_until_incl |]. rewrite range_down_length. lia. }
    change (captures (page_events _ _ _ _ _)) with 1%nat. lia.
Qed.

Lemma process_html_loop_captures (self : EPUBSmartSplitter) (total : Z) (fuel : nat) :
  forall (top idx : Z) (w : World) (idx' : Z) (w' : World),
    process_html_loop render fuel self total top idx w = Some (idx', w') ->
    exists tr,
      w' = run_trace tr w /\ idx <= idx' /\
      Z.of_nat (captures tr) <= (idx' - idx) * page_budget self.
Proof.
  induction fuel as [| fuel IH]; intros top idx w idx' w'; cbn [process_html_loop].
  - destruct (top <? total); [discriminate |]. intros [= <- <-].
    exists []. split; [reflexivity |]. split; [lia | cbn; lia].
  - destruct (top <? total).
    + destruct (process_html_page_captures self total top idx w) as (tr1 & Hw1 & Hc1).
      destruct (process_html_page render self total top idx w) as [h w1].
      cbn [snd] in Hw1. subst w1. intros Hrun.
      apply IH in Hrun as (tr2 & -> & Hle & Hc2).
      exists (tr1 ++ tr2). split; [symmetry; apply run_trace_app |]. split; [lia |].
      rewrite captures_app. lia.
    + intros [= <- <-].
      exists []. split; [reflexivity |]. split; [lia | cbn; lia].
Qed.

(** X14: the captures [process_html] takes for a document are at most
    [max(0, base_height - min_height + 1) + 1] per page it writes: one per
    candidate height from the base height down to the minimum height, and
    the final capture of the page. *)
Theorem process_html_capture_budget (fuel : nat) (self : EPUBSmartSplitter)
    (html_path : string) (start_idx : Z) (w : World) (idx' : Z) (w' : World) :
  process_html render scrollHeight fuel self html_path start_idx w = Some (idx', w') ->
  exists tr,
    w' = run_trace tr (loaded self html_path w) /\
    start_idx <= idx' /\
    Z.of_nat (captures tr) <=
      (idx' - start_idx) *
      (Z.max 0 (base_height self - int_mul_0_3 (base_height self) + 1) + 1).
Proof.
  rewrite process_html_unfold. apply process_html_loop_captures.
Qed.

(** X15: a document whose total height is 0 or less gives no page,
    whatever the fuel: [process_html] only loads it and returns the index
    it was given. *)
Theorem process_html_empty_document (fuel : nat) (self : EPUBSmartSplitter)
    (html_path : string) (start_idx : Z) (w : World) :
  scrollHeight (page (loaded self html_path w)) <= 0 ->
  process_html render scrollHeight fuel self html_path start_idx w =
    Some (start_idx, loaded self html_path w) /\
  saved_pages (page w) (load_events self html_path) = [] /\
  files (loaded self html_path w) = files w.
Proof.
  intros Hempty. split; [| split; reflexivity].
  rewrite process_html_unfold.
  destruct fuel; cbn [process_html_loop];
    replace (0 <? scrollHeight (page (loaded self html_path w))) with false by lia;
    reflexivity.
Qed.

End CostExtras.

(** * The further properties on the test documents *)

Lemma find_clean_break_state_independent_witness :
  fst (find_clean_break (strip_render lined) demo 0 25 (blank_world demo)) =
  fst (find_clean_break (strip_render lined) demo 0 25
         (run_trace [EvViewport 2 4; EvScroll 9] (blank_world demo))).
Proof.
  apply (find_clean_break_state_independent (strip_render lined) demo 0 25
           (blank_world demo) (run_trace [EvViewport 2 4; EvScroll 9] (blank_world demo)));
    reflexivity.
Defined.

Lemma find_clean_break_threshold_off_witness :
  fst (find_clean_break (strip_render lined) demo_off 0 25 (blank_world demo_off)) =
    Z.min 25 (base_height demo_off) /\
  (captures_during (find_clean_break (strip_render lined) demo_off 0 25)
     (blank_world demo_off) <= 1)%nat.
Proof.
  apply (find_clean_break_threshold_off (strip_render lined) demo_off 0 25
           (blank_world demo_off)).
  - vm_compute. discriminate.
  - intros p. eapply Forall_impl; [apply strip_render_bytes |]. cbn. lia.
Defined.

Lemma demo_chapter_run :
  process_html (strip_render lined) demo_height 30 demo "/book/OEBPS/ch1.xhtml" 0
    (blank_world demo) = Some (4, demo_chapter_world).
Proof. vm_compute. reflexivity. Defined.

Lemma process_html_pages_clean_or_full_witness :
  exists tr,
    demo_chapter_world =
      run_trace tr (run_trace (load_events demo "/book/OEBPS/ch1.xhtml") (blank_world demo)) /\
    Forall (fun s =>
              sv_image s =
                Image.point (binarize demo)
                  (strip_render lined
                     (probe_page demo
                        (page (run_trace (load_events demo "/book/OEBPS/ch1.xhtml")
                                 (blank_world demo)))
                        (sv_top s) (sv_height s))) /\
              (sv_height s =
                 Z.min (demo_height
                          (page (run_trace (load_events demo "/book/OEBPS/ch1.xhtml")
                                   (blank_world demo))) - sv_top s)
                       (base_height demo) \/
               (int_mul_0_3 (base_height demo) <= sv_height s
                  < Z.min (demo_height
                             (page (run_trace (load_events demo "/book/OEBPS/ch1.xhtml")
                                      (blank_world demo))) - sv_top s)
                          (base_height demo) /\
                is_text_cut_off demo
                  (strip_render lined
                     (probe_page demo
                        (page (run_trace (load_events demo "/book/OEBPS/ch1.xhtml")
                                 (blank_world demo)))
                        (sv_top s) (sv_height s))) = false)))
           (saved_pages
              (page (run_trace (load_events demo "/book/OEBPS/ch1.xhtml") (blank_world demo)))
              tr).
Proof.
  exact (process_html_pages_clean_or_full (strip_render lined) demo_height 30 demo
           "/book/OEBPS/ch1.xhtml" 0 (blank_world demo) 4 demo_chapter_world demo_chapter_run).
Defined.

Lemma process_html_page_heights_witness :
  int_mul_0_3_binary64 (base_height demo) = Some (3 * base_height demo / 10) /\
  exists tr,
    demo_chapter_world =
      run_trace tr (run_trace (load_events demo "/book/OEBPS/ch1.xhtml") (blank_world demo)) /\
    Forall (fun s =>
              sv_height s <= base_height demo /\
              sv_top s + sv_height s <=
                demo_height (page (run_trace (load_events demo "/book/OEBPS/ch1.xhtml")
                                     (blank_world demo))) /\
              (sv_top s + sv_height s <
                 demo_height (page (run_trace (load_events demo "/book/OEBPS/ch1.xhtml")
                                      (blank_world demo))) ->
               3 * base_height demo / 10 <= sv_height s))
           (saved_pages
              (page (run_trace (load_events demo "/book/OEBPS/ch1.xhtml") (blank_world demo)))
              tr).
Proof.
  refine (process_html_page_heights (strip_render lined) demo_height 30 demo
            "/book/OEBPS/ch1.xhtml" 0 (blank_world demo) 4 demo_chapter_world _
            demo_chapter_run).
  vm_compute. split; discriminate.
Defined.

Lemma process_html_page_count_witness :
  int_mul_0_3_binary64 (base_height demo) = Some (3 * base_height demo / 10) /\
  exists idx' w',
    process_html (strip_render lined) demo_height 30 demo "/book/OEBPS/ch1.xhtml" 0
      (blank_world demo) = Some (idx', w') /\
    0 <= idx' /\
    demo_height (page (run_trace (load_events demo "/book/OEBPS/ch1.xhtml") (blank_world demo)))
      <= (idx' - 0) * base_height demo /\
    (0 < idx' ->
     (idx' - 0 - 1) * (3 * base_height demo / 10)
       < demo_height (page (run_trace (load_events demo "/book/OEBPS/ch1.xhtml")
                              (blank_world demo)))).
Proof.
  apply (process_html_page_count (strip_render lined) demo_height 30 demo
           "/book/OEBPS/ch1.xhtml" 0 (blank_world demo)).
  - vm_compute. split; discriminate.
  - vm_compute. lia.
Defined.

Lemma process_completes_witness :
  exists n w,
    process (strip_render lined) demo_height demo_spine 30 demo ∅ = (Completed n, w) /\
    gotos (trace w) = ["/book/OEBPS/ch1.xhtml"; "/book/OEBPS/ch2.xhtml"].
Proof.
  apply (process_completes (strip_render lined) demo_height demo_spine 30 demo ∅ 25).
  - vm_compute. discriminate.
  - intros p. unfold demo_height. lia.
  - vm_compute. lia.
  - reflexivity.
Defined.

Lemma page_file_names_distinct_witness : page_file_name 1 <> page_file_name 10001.
Proof. apply (page_file_names_distinct 1 10001); lia. Defined.

Lemma demo_main_run :
  main (strip_render lined) demo_height demo_spine 30 demo Absent =
  (Completed 8,
   (main (strip_render lined) demo_height demo_spine 30 demo Absent).1.2,
   (main (strip_render lined) demo_height demo_spine 30 demo Absent).2).
Proof. vm_compute. reflexivity. Defined.

Lemma main_output_directory_content_witness :
  exists fs : gmap string File,
    (main (strip_render lined) demo_height demo_spine 30 demo Absent).1.2 = Directory fs /\
    size fs = Z.to_nat 8 /\
    forall name, is_Some (fs !! name) <-> exists i, 0 <= i < 8 /\ name = page_file_name i.
Proof.
  exact (main_output_directory_content (strip_render lined) demo_height demo_spine 30 demo
           Absent 8 _ _ demo_main_run).
Defined.

Lemma process_pages_one_bit_witness :
  Forall (fun pixel => pixel = 0 \/ pixel = 255) (Image.getdata (Image.mk 2 1 [0; 0])) /\
  exists p, Image.width (Image.mk 2 1 [0; 0]) = Image.width (strip_render lined p) /\
            Image.height (Image.mk 2 1 [0; 0]) = Image.height (strip_render lined p) /\
            length (Image.getdata (Image.mk 2 1 [0; 0])) =
              length (Image.getdata (strip_render lined p)).
Proof.
  assert (process (strip_render lined) demo_height demo_spine 30 demo ∅ =
          ((process (strip_render lined) demo_height demo_spine 30 demo ∅).1,
           (process (strip_render lined) demo_height demo_spine 30 demo ∅).2)) as Hrun
    by (vm_compute; reflexivity).
  assert (In (EvSave "0003.png" (Image.mk 2 1 [0; 0]))
            (trace (process (strip_render lined) demo_height demo_spine 30 demo ∅).2)) as Hin
    by (apply (nth_error_In _ 59); vm_compute; reflexivity).
  exact (process_pages_one_bit (strip_render lined) demo_height demo_spine 30 demo ∅ _ _
           "0003.png" (Image.mk 2 1 [0; 0]) Hrun Hin).
Defined.


Lemma process_html_capture_budget_witness :
  exists tr,
    demo_chapter_world =
      run_trace tr (run_trace (load_events demo "/book/OEBPS/ch1.xhtml") (blank_world demo)) /\
    0 <= 4 /\
    Z.of_nat (captures tr) <=
      (4 - 0) * (Z.max 0 (base_height demo - int_mul_0_3 (base_height demo) + 1) + 1).
Proof.
  exact (process_html_capture_budget (strip_render lined) demo_height 30 demo
           "/book/OEBPS/ch1.xhtml" 0 (blank_world demo) 4 demo_chapter_world demo_chapter_run).
Defined.

Lemma process_html_empty_document_witness :
  process_html (strip_render lined) (fun _ => 0) 0 demo "/book/empty.xhtml" 7
    (blank_world demo) =
    Some (7, run_trace (load_events demo "/book/empty.xhtml") (blank_world demo)) /\
  saved_pages (page (blank_world demo)) (load_events demo "/book/empty.xhtml") = [] /\
  files (run_trace (load_events demo "/book/empty.xhtml") (blank_world demo)) =
    files (blank_world demo).
Proof.
  apply (process_html_empty_document (strip_render lined) (fun _ => 0) 0 demo
           "/book/empty.xhtml" 7 (blank_world demo)).
  cbn. lia.
Defined.

(** The test book: the second [ch1] entry of the manifest is the one
    used, the itemref that is not linear and the one without a manifest
    entry are passed over. *)
Lemma extract_spine_htmls_in_spine_order_witness :
  Spine.extract_spine_htmls demo_unzip demo =
  inr ["/book/OEBPS/ch1.xhtml"; "/book/OEBPS/ch2.xhtml"].
Proof.
  rewrite (extract_spine_htmls_in_spine_order demo_unzip demo demo_workdir
             {["full-path" := "OEBPS/content.opf"]} "OEBPS/content.opf" demo_package
             eq_refl eq_refl eq_refl eq_refl eq_refl).
  - vm_compute. reflexivity.
  - repeat constructor; try (vm_compute; discriminate);
      intros href _; eexists; eexists; split; reflexivity.
Defined.

Lemma extract_spine_htmls_missing_href_witness :
  (exists exn, Spine.extract_spine_htmls (fun _ => inr broken_workdir) demo = inl exn) /\
  (Forall (fun it' : gmap string string =>
             Spine.is_linear it' = true ->
             Spine.paths_ok broken_workdir "content.opf"
               (Spine.build_manifest
                  (Spine.findall broken_package
                     (Spine.opf_namespace (Spine.tag broken_package))
                     "opf:manifest/opf:item"))
               (it' !! "idref"))
          (Spine.findall broken_package (Spine.opf_namespace (Spine.tag broken_package))
             "opf:spine/opf:itemref") ->
   Spine.extract_spine_htmls (fun _ => inr broken_workdir) demo = inl "TypeError").
Proof.
  apply (extract_spine_htmls_missing_href (fun _ => inr broken_workdir) demo broken_workdir
           {["full-path" := "content.opf"]} "content.opf" broken_package
           {["idref" := "ch2"]}); try reflexivity.
  right. left. reflexivity.
Defined.

Lemma build_manifest_last_wins_witness :
  Spine.build_manifest
    ([ {["id" := "ch1"; "href" := "draft.xhtml"]} ] ++
     {["id" := "ch1"; "href" := "ch1.xhtml"]} :: [ {["id" := "notes"; "href" := "n.xhtml"]} ])
    !! (({["id" := "ch1"; "href" := "ch1.xhtml"]} : gmap string string) !! "id") =
    Some (({["id" := "ch1"; "href" := "ch1.xhtml"]} : gmap string string) !! "href") /\
  forall k,
    Forall (fun it : gmap string string => it !! "id" <> k)
      ([ {["id" := "ch1"; "href" := "draft.xhtml"]} ] ++
       {["id" := "ch1"; "href" := "ch1.xhtml"]} :: [ {["id" := "notes"; "href" := "n.xhtml"]} ]) ->
    Spine.build_manifest
      ([ {["id" := "ch1"; "href" := "draft.xhtml"]} ] ++
       {["id" := "ch1"; "href" := "ch1.xhtml"]} :: [ {["id" := "notes"; "href" := "n.xhtml"]} ])
      !! k = None.
Proof.
  apply (build_manifest_last_wins [ {["id" := "ch1"; "href" := "draft.xhtml"]} ]
           [ {["id" := "notes"; "href" := "n.xhtml"]} ]
           {["id" := "ch1"; "href" := "ch1.xhtml"]}).
  constructor; [| constructor]. vm_compute. discriminate.
Defined.

Lemma opf_namespace_of_qualified_tag_witness :
  Spine.opf_namespace ("{" +:+ "urn:opf" +:+ "}" +:+ "package") = "urn:opf".
Proof.
  apply (opf_namespace_of_qualified_tag "urn:opf" "package");
    cbn; intros H; repeat (destruct H as [H | H]; [discriminate H |]); exact H.
Defined.
